(** * FiftyOne zoo datasets: acquisition strategies and the CIFAR100 ingest script

    A shallow embedding of [fiftyone/zoo/base.py] and of
    [examples/datamodel/ingest_data.py].

    The file system is an explicit tree, the calls that reach outside the
    module (downloads, archive extraction, directory moves, metadata
    importers) are fields of a record of collaborators, and every call that
    retrieves or moves data is written to a log, so that "how many transport
    operations did this call perform" is a statement about the log. *)

From Stdlib Require Import String Ascii List Bool Arith Lia ZArith QArith.
From Stdlib Require Import Permutation Sorted Orders Mergesort.
Import ListNotations.

Set Warnings "-register-all".

Close Scope Q_scope.
Local Open Scope string_scope.
Local Open Scope list_scope.

(** ** Paths

    A path is the list of its segments, root first.  [os.path.join p name]
    appends one segment and [os.path.dirname] drops the last one; this is
    what [posixpath] computes on normalised paths whose segments hold no
    separator. *)

Definition path := list string.

Definition join (p : path) (name : string) : path := p ++ [name].

Definition dirname (p : path) : path := removelast p.

Definition basename (p : path) : string := last p "".

Fixpoint is_prefix (p q : path) : bool :=
  match p, q with
  | [], _ => true
  | _ :: _, [] => false
  | a :: p', b :: q' => (a =? b)%string && is_prefix p' q'
  end.

Fixpoint path_eqb (p q : path) : bool :=
  match p, q with
  | [], [] => true
  | a :: p', b :: q' => (a =? b)%string && path_eqb p' q'
  | _, _ => false
  end.

(** ** The file system

    A node is a regular file or a directory; a directory lists its entries
    in the order [os.listdir] reports them.  File contents are kept in
    parsed form: raw bytes, an archive with the entries it unpacks to, or
    a COCO annotations document with its class and image lists. *)

Inductive node :=
| File (data : content)
| Dir (kids : list (string * node))
with content :=
| Bytes (s : string)
| Archive (entries : list (string * node))
| Annotations (classes images : list string).

Fixpoint assoc (s : string) (kids : list (string * node)) : option node :=
  match kids with
  | [] => None
  | (n, c) :: rest => if (n =? s)%string then Some c else assoc s rest
  end.

(** Bind [s] to [c]: in place when [s] is already an entry, at the end
    otherwise. *)
Fixpoint set_kid (s : string) (c : node) (kids : list (string * node))
  : list (string * node) :=
  match kids with
  | [] => [(s, c)]
  | (n, d) :: rest =>
      if (n =? s)%string then (n, c) :: rest else (n, d) :: set_kid s c rest
  end.

Definition del_kid (s : string) (kids : list (string * node))
  : list (string * node) :=
  filter (fun e => negb (fst e =? s)%string) kids.

Fixpoint fs_lookup (p : path) (t : node) : option node :=
  match p with
  | [] => Some t
  | s :: p' =>
      match t with
      | File _ => None
      | Dir kids =>
          match assoc s kids with
          | Some c => fs_lookup p' c
          | None => None
          end
      end
  end.

(** Rewrite the entry list of the directory at [p]; a no-op when [p] is
    not a directory. *)
Fixpoint fs_alter (f : list (string * node) -> list (string * node))
  (p : path) (t : node) : node :=
  match p with
  | [] => match t with Dir kids => Dir (f kids) | File _ => t end
  | s :: p' =>
      match t with
      | File _ => t
      | Dir kids =>
          match assoc s kids with
          | Some c => Dir (set_kid s (fs_alter f p' c) kids)
          | None => t
          end
      end
  end.

(** [os.makedirs p] with [exist_ok] on the way: [None] when a regular file
    is in the way. *)
Fixpoint fs_makedirs (p : path) (t : node) : option node :=
  match p with
  | [] => match t with Dir _ => Some t | File _ => None end
  | s :: p' =>
      match t with
      | File _ => None
      | Dir kids =>
          let sub := match assoc s kids with Some c => c | None => Dir [] end in
          match fs_makedirs p' sub with
          | Some c' => Some (Dir (set_kid s c' kids))
          | None => None
          end
      end
  end.

Definition fs_exists (p : path) (t : node) : bool :=
  match fs_lookup p t with Some _ => true | None => false end.

Definition fs_isdir (p : path) (t : node) : bool :=
  match fs_lookup p t with Some (Dir _) => true | _ => false end.

(** Whether resolving [p] meets a regular file, at [p] or on the way
    to it. *)
Fixpoint fs_through_file (p : path) (t : node) : bool :=
  match p with
  | [] => match t with File _ => true | Dir _ => false end
  | s :: p' =>
      match t with
      | File _ => true
      | Dir kids =>
          match assoc s kids with
          | Some c => fs_through_file p' c
          | None => false
          end
      end
  end.

Definition fs_unlink (p : path) (t : node) : node :=
  fs_alter (del_kid (basename p)) (dirname p) t.

Definition fs_place (p : path) (n : node) (t : node) : node :=
  fs_alter (set_kid (basename p) n) (dirname p) t.

(** Number of regular files directly inside the directory at [p]: the
    count a directory scan of a flat data directory yields. *)
Definition is_file (e : string * node) : bool :=
  match snd e with File _ => true | Dir _ => false end.

Definition scan_files (p : path) (t : node) : nat :=
  match fs_lookup p t with
  | Some (Dir kids) => length (filter is_file kids)
  | _ => 0
  end.

(** ** Exceptions and outcomes *)

Inductive exn :=
| FileNotFoundError
| FileExistsError
| NotADirectoryError
| IsADirectoryError
| InvalidArgumentError
| DirectoryNotEmptyError
| ShutilError
| TypeError
| ManualDownloadRequiredError
| TransportError
| MetadataInconsistencyError.

Inductive outcome (A : Type) :=
| Ok (a : A)
| Raise (e : exn).

Arguments Ok {A} a.
Arguments Raise {A} e.

(** An operation on the file system alone: it returns or raises, and
    leaves a file system behind either way. *)
Definition fs_action (A : Type) := node -> outcome A * node.

(** An operation that only reads the file system. *)
Definition fs_reader (A : Type) := node -> outcome A.

(** ** [os.rename] and [shutil.move] *)

Definition os_rename (src dst : path) : fs_action unit := fun t =>
  match fs_lookup src t with
  | None => (Raise FileNotFoundError, t)
  | Some n =>
      if path_eqb src dst then (Ok tt, t)
      else if is_prefix src dst then (Raise InvalidArgumentError, t)
      else
        match fs_lookup dst t, n with
        | Some (File _), File _ => (Ok tt, fs_place dst n (fs_unlink src t))
        | Some (File _), Dir _ => (Raise NotADirectoryError, t)
        | Some (Dir []), Dir _ => (Ok tt, fs_place dst n (fs_unlink src t))
        | Some (Dir (_ :: _)), Dir _ => (Raise DirectoryNotEmptyError, t)
        | Some (Dir _), File _ => (Raise IsADirectoryError, t)
        | None, _ =>
            if fs_isdir (dirname dst) t
            then (Ok tt, fs_place dst n (fs_unlink src t))
            else (Raise FileNotFoundError, t)
        end
  end.

(** [shutil.move src dst].  Into an existing directory the source keeps its
    base name and a taken name is an error; otherwise the source is renamed
    to [dst] itself.  When the rename fails, a directory is copied with
    [copytree] (which creates missing parents) and removed, and a regular
    file fails the copy the way it failed the rename. *)
Definition shutil_move (src dst : path) : fs_action unit := fun t =>
  if fs_isdir dst t && path_eqb src dst then (Ok tt, t)
  else
    let real_dst := if fs_isdir dst t then join dst (basename src) else dst in
    if fs_isdir dst t && fs_exists real_dst t then (Raise ShutilError, t)
    else
      match os_rename src real_dst t with
      | (Ok _, t') => (Ok tt, t')
      | (Raise e, _) =>
          match fs_lookup src t with
          | Some (Dir ks) =>
              if is_prefix src dst then (Raise ShutilError, t)
              else if fs_exists real_dst t then (Raise FileExistsError, t)
              else
                match fs_makedirs (dirname real_dst) t with
                | Some t1 => (Ok tt, fs_unlink src (fs_place real_dst (Dir ks) t1))
                | None => (Raise NotADirectoryError, t)
                end
          | _ => (Raise e, t)
          end
      end.

(** ** The world: file system and transport log *)

Inductive event :=
| EvDownloadGoogleDriveFile (id : string) (dest : path)
| EvExtractZip (zip : path) (delete_zip : bool)
| EvShutilMove (src dst : path)
| EvMoveDir (src dst : path)
| EvMoveFile (src dst : path)
| EvDownloadCocoDatasetSplit (scratch_dir : path) (split : option string)
    (year : string) (cleanup : bool)
| EvDownloadLfwDataset (dataset_dir scratch_dir : path) (cleanup : bool)
| EvWrangleBdd100kDownload (bdd100k_dir dataset_dir : path) (copy_files : bool)
| EvDownloadHmdb51Dataset (dataset_dir scratch_dir : path) (fold : Z)
    (cleanup : bool)
| EvDownloadUcf101Dataset (dataset_dir scratch_dir : path) (fold : Z)
    (cleanup : bool).

Record world := World { fs : node; log : list event }.

Definition M (A : Type) := world -> outcome A * world.

Definition ret {A} (a : A) : M A := fun w => (Ok a, w).

Definition raise {A} (e : exn) : M A := fun w => (Raise e, w).

Definition bind {A B} (m : M A) (k : A -> M B) : M B := fun w =>
  match m w with
  | (Ok a, w') => k a w'
  | (Raise e, w') => (Raise e, w')
  end.

Declare Scope zoo_scope.
Delimit Scope zoo_scope with zoo.
Notation "x <- m ;; k" := (bind m (fun x => k))
  (at level 100, m at next level, right associativity) : zoo_scope.
Notation "m ;;; k" := (bind m (fun _ => k))
  (at level 100, right associativity) : zoo_scope.
Local Open Scope zoo_scope.

(** A transport call: the invocation is logged, then it acts on the
    file system. *)
Definition transport {A} (ev : event) (act : fs_action A) : M A := fun w =>
  let (o, t') := act (fs w) in
  (o, World t' (log w ++ [ev])).

(** A read-only call: no log entry, no change. *)
Definition inspect {A} (r : fs_reader A) : M A := fun w => (r (fs w), w).

Definition os_path_exists (p : path) : M bool :=
  fun w => (Ok (fs_exists p (fs w)), w).

(** [os.listdir]: [ENOTDIR] when [p] is a regular file or leads through
    one, [ENOENT] when a segment of [p] is simply missing. *)
Definition os_listdir (p : path) : M (list string) :=
  inspect (fun t =>
    match fs_lookup p t with
    | Some (Dir kids) => Ok (map fst kids)
    | Some (File _) => Raise NotADirectoryError
    | None =>
        if fs_through_file p t then Raise NotADirectoryError
        else Raise FileNotFoundError
    end).

(** [os.path.join(dir, split)]: a [None] split is a [TypeError]. *)
Definition os_path_join (p : path) (s : option string) : M path :=
  match s with
  | Some n => ret (join p n)
  | None => raise TypeError
  end.

Fixpoint for_each {A} (l : list A) (body : A -> M unit) : M unit :=
  match l with
  | [] => ret tt
  | a :: rest => body a ;;; for_each rest body
  end.

(** [_move_dir(src, dst)] *)
Definition _move_dir (src dst : path) : M unit :=
  names <- os_listdir src ;;
  for_each names (fun f =>
    transport (EvShutilMove (join src f) dst) (shutil_move (join src f) dst)).

(** ** Collaborators

    Everything [base.py] calls outside itself: the [eta] download, archive
    and move helpers, the per-dataset download helpers of [fiftyone.utils],
    and the metadata importers.  The strategies are written against this
    record; what a collaborator does to the file system is its own
    business, that it was called is recorded by [transport]. *)

Inductive importer :=
| FiftyOneDatasetImporter
| FiftyOneVideoLabelsDatasetImporter
| ImageClassificationDirectoryTreeImporter
| VideoClassificationDirectoryTreeImporter
| BDDDatasetImporter.

Record collaborators := Collaborators {
  (* eta.core.web, eta.core.utils *)
  download_google_drive_file : string -> path -> fs_action unit;
  extract_zip : path -> bool -> fs_action unit;
  move_dir : path -> path -> fs_action unit;
  move_file : path -> path -> fs_action unit;
  (* fiftyone.utils.coco *)
  download_coco_dataset_split :
    path -> option string -> string -> bool -> fs_action (path * path);
  load_coco_detection_annotations :
    path -> fs_reader (list string * list string);
  (* fiftyone.utils.lfw, .bdd, .hmdb51, .ucf101 *)
  download_lfw_dataset : path -> path -> bool -> fs_action unit;
  wrangle_bdd100k_download : path -> path -> bool -> fs_action unit;
  download_hmdb51_dataset : path -> path -> Z -> bool -> fs_action unit;
  download_ucf101_dataset : path -> path -> Z -> bool -> fs_action unit;
  (* fiftyone.utils.data, fiftyone.utils.bdd importers *)
  get_classes : importer -> path -> fs_reader (list string);
  get_num_samples : importer -> path -> fs_reader nat
}.

(** ** Python's [sorted] on a list of strings: ascending by code point. *)

Module StringOrder <: TotalLeBool.
Definition t := string.
Definition leb := String.leb.
Definition leb_total :
  forall a1 a2, leb a1 a2 = true \/ leb a2 a1 = true := String.leb_total.
End StringOrder.

Module StringSort := Sort StringOrder.

Definition sorted (l : list string) : list string := StringSort.sort l.

(** ** The datasets of [base.py] *)

Inductive dataset_type :=
| FiftyOneDataset
| FiftyOneVideoLabelsDataset
| COCODetectionDataset
| ImageClassificationDirectoryTree
| BDDDataset
| VideoClassificationDirectoryTree.

(** A strategy instance with its construction parameters.  [source_dir] is
    [None] or a path; [self.source_dir or scratch_dir] picks the scratch
    directory for [None]. *)
Inductive zoo_dataset :=
| QuickstartDataset
| VideoQuickstartDataset
| COCO2014Dataset
| COCO2017Dataset
| LabeledFacesInTheWildDataset
| CityscapesDataset (fine_annos coarse_annos person_annos : bool)
| BDD100KDataset (source_dir : option path) (copy_files : bool)
| HMDB51Dataset (fold : Z)
| UCF101Dataset (fold : Z).

Definition name (self : zoo_dataset) : string :=
  match self with
  | QuickstartDataset => "quickstart"
  | VideoQuickstartDataset => "quickstart-video"
  | COCO2014Dataset => "coco-2014-segmentation"
  | COCO2017Dataset => "coco-2017-segmentation"
  | LabeledFacesInTheWildDataset => "lfw"
  | CityscapesDataset _ _ _ => "cityscapes"
  | BDD100KDataset _ _ => "bdd100k"
  | HMDB51Dataset _ => "hmdb51"
  | UCF101Dataset _ => "ucf101"
  end.

Definition supported_splits (self : zoo_dataset) : option (list string) :=
  match self with
  | QuickstartDataset => None
  | VideoQuickstartDataset => None
  | COCO2014Dataset => Some ["test"; "train"; "validation"]
  | COCO2017Dataset => Some ["test"; "train"; "validation"]
  | LabeledFacesInTheWildDataset => Some ["test"; "train"]
  | CityscapesDataset _ _ _ => Some ["train"; "test"; "validation"]
  | BDD100KDataset _ _ => Some ["train"; "validation"; "test"]
  | HMDB51Dataset _ => Some ["train"; "test"; "other"]
  | UCF101Dataset _ => Some ["train"; "test"]
  end.

(** The [parameters] property; only HMDB51 and UCF101 define one. *)
Definition parameters (self : zoo_dataset) : list (string * Z) :=
  match self with
  | HMDB51Dataset fold => [("fold", fold)]
  | UCF101Dataset fold => [("fold", fold)]
  | _ => []
  end.

(** The classes the registry maps names to, and their construction with
    default arguments. *)
Inductive zoo_class :=
| ClsQuickstart
| ClsVideoQuickstart
| ClsCOCO2014
| ClsCOCO2017
| ClsLabeledFacesInTheWild
| ClsCityscapes
| ClsBDD100K
| ClsHMDB51
| ClsUCF101.

Definition instantiate (c : zoo_class) : zoo_dataset :=
  match c with
  | ClsQuickstart => QuickstartDataset
  | ClsVideoQuickstart => VideoQuickstartDataset
  | ClsCOCO2014 => COCO2014Dataset
  | ClsCOCO2017 => COCO2017Dataset
  | ClsLabeledFacesInTheWild => LabeledFacesInTheWildDataset
  | ClsCityscapes => CityscapesDataset false false false
  | ClsBDD100K => BDD100KDataset None true
  | ClsHMDB51 => HMDB51Dataset 1%Z
  | ClsUCF101 => UCF101Dataset 1%Z
  end.

Definition AVAILABLE_DATASETS : list (string * zoo_class) :=
  [ ("quickstart", ClsQuickstart);
    ("quickstart-video", ClsVideoQuickstart);
    ("coco-2014-segmentation", ClsCOCO2014);
    ("coco-2017-segmentation", ClsCOCO2017);
    ("lfw", ClsLabeledFacesInTheWild);
    ("cityscapes", ClsCityscapes);
    ("bdd100k", ClsBDD100K);
    ("hmdb51", ClsHMDB51);
    ("ucf101", ClsUCF101) ].

(** Dictionary lookup [AVAILABLE_DATASETS[key]]. *)
Fixpoint registry_get (key : string) (reg : list (string * zoo_class))
  : option zoo_class :=
  match reg with
  | [] => None
  | (k, c) :: rest => if (k =? key)%string then Some c else registry_get key rest
  end.

Definition _GDRIVE_ID (self : zoo_dataset) : string :=
  match self with
  | VideoQuickstartDataset => "1O-WMjtiBBMXGEHnnus6y2nSlJu8pY5vo"
  | _ => "1UWTlFmdq8H-wdJHxVsAKpXBilY1CWwm_"
  end.

Definition _DIR_IN_ZIP (self : zoo_dataset) : string :=
  match self with
  | VideoQuickstartDataset => "quickstart-video"
  | _ => "quickstart"
  end.

(** What [_download_and_prepare] returns:
    [(dataset_type, num_samples, classes)]. *)
Definition prepared := (dataset_type * nat * option (list string))%type.

Section Strategies.

Variable C : collaborators.

Definition importer_get_classes (i : importer) (d : path) : M (list string) :=
  inspect (get_classes C i d).

Definition importer_get_num_samples (i : importer) (d : path) : M nat :=
  inspect (get_num_samples C i d).

(** [_download_and_prepare(self, dataset_dir, scratch_dir, split)], one
    branch per class.  Of the five values
    [load_coco_detection_annotations] returns, the second (the classes) and
    the fourth (the images) are used. *)
Definition _download_and_prepare (self : zoo_dataset)
  (dataset_dir scratch_dir : path) (split : option string) : M prepared :=
  match self with
  | QuickstartDataset =>
      let tmp_zip_path := join scratch_dir "dataset.zip" in
      transport (EvDownloadGoogleDriveFile (_GDRIVE_ID self) tmp_zip_path)
        (download_google_drive_file C (_GDRIVE_ID self) tmp_zip_path) ;;;
      transport (EvExtractZip tmp_zip_path true)
        (extract_zip C tmp_zip_path true) ;;;
      _move_dir (join scratch_dir (_DIR_IN_ZIP self)) dataset_dir ;;;
      let imp := FiftyOneDatasetImporter in
      classes <- importer_get_classes imp dataset_dir ;;
      num_samples <- importer_get_num_samples imp dataset_dir ;;
      ret (FiftyOneDataset, num_samples, Some classes)
  | VideoQuickstartDataset =>
      let tmp_zip_path := join scratch_dir "dataset.zip" in
      transport (EvDownloadGoogleDriveFile (_GDRIVE_ID self) tmp_zip_path)
        (download_google_drive_file C (_GDRIVE_ID self) tmp_zip_path) ;;;
      transport (EvExtractZip tmp_zip_path true)
        (extract_zip C tmp_zip_path true) ;;;
      _move_dir (join scratch_dir (_DIR_IN_ZIP self)) dataset_dir ;;;
      num_samples <-
        importer_get_num_samples FiftyOneVideoLabelsDatasetImporter
          dataset_dir ;;
      ret (FiftyOneVideoLabelsDataset, num_samples, None)
  | COCO2014Dataset =>
      paths <- transport
                 (EvDownloadCocoDatasetSplit scratch_dir split "2014" true)
                 (download_coco_dataset_split C scratch_dir split "2014" true) ;;
      let images_dir := fst paths in
      let anno_path := snd paths in
      let data_dir := join dataset_dir "data" in
      let labels_path := join dataset_dir "labels.json" in
      transport (EvMoveDir images_dir data_dir)
        (move_dir C images_dir data_dir) ;;;
      transport (EvMoveFile anno_path labels_path)
        (move_file C anno_path labels_path) ;;;
      parsed <- inspect (load_coco_detection_annotations C labels_path) ;;
      let classes := fst parsed in
      let images := snd parsed in
      let num_samples := length images in
      ret (COCODetectionDataset, num_samples, Some classes)
  | COCO2017Dataset =>
      paths <- transport
                 (EvDownloadCocoDatasetSplit scratch_dir split "2017" true)
                 (download_coco_dataset_split C scratch_dir split "2017" true) ;;
      let images_dir := fst paths in
      let anno_path := snd paths in
      let data_dir := join dataset_dir "data" in
      let labels_path := join dataset_dir "labels.json" in
      transport (EvMoveDir images_dir data_dir)
        (move_dir C images_dir data_dir) ;;;
      transport (EvMoveFile anno_path labels_path)
        (move_file C anno_path labels_path) ;;;
      parsed <- inspect (load_coco_detection_annotations C labels_path) ;;
      let classes := fst parsed in
      let images := snd parsed in
      let num_samples := length images in
      ret (COCODetectionDataset, num_samples, Some classes)
  | LabeledFacesInTheWildDataset =>
      let dataset_dir := dirname dataset_dir in
      split_dir <- os_path_join dataset_dir split ;;
      present <- os_path_exists split_dir ;;
      (if negb present
       then transport (EvDownloadLfwDataset dataset_dir scratch_dir false)
              (download_lfw_dataset C dataset_dir scratch_dir false)
       else ret tt) ;;;
      let imp := ImageClassificationDirectoryTreeImporter in
      train <- importer_get_classes imp (join dataset_dir "train") ;;
      test <- importer_get_classes imp (join dataset_dir "test") ;;
      let classes := sorted (train ++ test) in
      num_samples <- importer_get_num_samples imp split_dir ;;
      ret (ImageClassificationDirectoryTree, num_samples, Some classes)
  | CityscapesDataset _ _ _ =>
      let dataset_dir := dirname dataset_dir in
      split_dir <- os_path_join dataset_dir split ;;
      present <- os_path_exists split_dir ;;
      (* the body of the [if] is a string literal: the call to
         [parse_cityscapes_dataset] is quoted out *)
      (if negb present then ret tt else ret tt) ;;;
      let imp := FiftyOneDatasetImporter in
      train <- importer_get_classes imp (join dataset_dir "train") ;;
      test <- importer_get_classes imp (join dataset_dir "test") ;;
      validation <-
        importer_get_classes imp (join dataset_dir "validation") ;;
      let classes := sorted (train ++ test ++ validation) in
      num_samples <- importer_get_num_samples imp split_dir ;;
      ret (FiftyOneDataset, num_samples, Some classes)
  | BDD100KDataset source_dir copy_files =>
      let dataset_dir := dirname dataset_dir in
      split_dir <- os_path_join dataset_dir split ;;
      present <- os_path_exists split_dir ;;
      (if negb present
       then
         let bdd100k_dir :=
           match source_dir with Some d => d | None => scratch_dir end in
         transport (EvWrangleBdd100kDownload bdd100k_dir dataset_dir copy_files)
           (wrangle_bdd100k_download C bdd100k_dir dataset_dir copy_files)
       else ret tt) ;;;
      num_samples <- importer_get_num_samples BDDDatasetImporter split_dir ;;
      ret (BDDDataset, num_samples, None)
  | HMDB51Dataset fold =>
      let dataset_dir := dirname dataset_dir in
      split_dir <- os_path_join dataset_dir split ;;
      present <- os_path_exists split_dir ;;
      (if negb present
       then transport (EvDownloadHmdb51Dataset dataset_dir scratch_dir fold false)
              (download_hmdb51_dataset C dataset_dir scratch_dir fold false)
       else ret tt) ;;;
      let imp := VideoClassificationDirectoryTreeImporter in
      classes <- importer_get_classes imp split_dir ;;
      num_samples <- importer_get_num_samples imp split_dir ;;
      ret (VideoClassificationDirectoryTree, num_samples, Some classes)
  | UCF101Dataset fold =>
      let dataset_dir := dirname dataset_dir in
      split_dir <- os_path_join dataset_dir split ;;
      present <- os_path_exists split_dir ;;
      (if negb present
       then transport (EvDownloadUcf101Dataset dataset_dir scratch_dir fold false)
              (download_ucf101_dataset C dataset_dir scratch_dir fold false)
       else ret tt) ;;;
      let imp := VideoClassificationDirectoryTreeImporter in
      classes <- importer_get_classes imp split_dir ;;
      num_samples <- importer_get_num_samples imp split_dir ;;
      ret (VideoClassificationDirectoryTree, num_samples, Some classes)
  end.

End Strategies.

(** ** Reference collaborators

    One concrete behaviour of the calls [base.py] makes outside itself, used
    to run the strategies on explicit file systems.  What the remote side
    serves is a parameter. *)

Record remote := Remote {
  gdrive : string -> option (list (string * node));
  coco_images : string -> string -> list (string * node);
  coco_annotations : string -> string -> content;
  lfw_splits : list (string * node);
  hmdb51_splits : Z -> list (string * node);
  ucf101_splits : Z -> list (string * node)
}.

Definition put_all (entries kids : list (string * node)) : list (string * node) :=
  fold_left (fun ks e => set_kid (fst e) (snd e) ks) entries kids.

(** [eta.core.utils.ensure_basedir] followed by writing [n] at [p]. *)
Definition write_node (p : path) (n : node) : fs_action unit := fun t =>
  match fs_makedirs (dirname p) t with
  | Some t1 => (Ok tt, fs_place p n t1)
  | None => (Raise NotADirectoryError, t)
  end.

(** [eta.core.web.download_google_drive_file]: the archive is written to
    [dest]; an unknown id is a transport failure. *)
Definition ref_download_google_drive_file (r : remote) (id : string)
  (dest : path) : fs_action unit := fun t =>
  match gdrive r id with
  | Some entries => write_node dest (File (Archive entries)) t
  | None => (Raise TransportError, t)
  end.

(** [eta.core.utils.extract_zip]: the entries are unpacked next to the
    archive, which is then deleted when asked. *)
Definition ref_extract_zip (zip : path) (delete_zip : bool) : fs_action unit :=
  fun t =>
  match fs_lookup zip t with
  | Some (File (Archive entries)) =>
      let t1 := fs_alter (put_all entries) (dirname zip) t in
      (Ok tt, if delete_zip then fs_unlink zip t1 else t1)
  | Some _ => (Raise TransportError, t)
  | None => (Raise FileNotFoundError, t)
  end.

(** [eta.core.utils.move_dir]: an existing output directory is deleted, the
    base directory is created, and the whole directory is moved. *)
Definition ref_move_dir (src dst : path) : fs_action unit := fun t =>
  let t1 := if fs_isdir dst t then fs_unlink dst t else t in
  match fs_makedirs (dirname dst) t1 with
  | Some t2 => shutil_move src dst t2
  | None => (Raise NotADirectoryError, t1)
  end.

(** [eta.core.utils.move_file]: the base directory is created and the file
    is moved. *)
Definition ref_move_file (src dst : path) : fs_action unit := fun t =>
  match fs_makedirs (dirname dst) t with
  | Some t1 => shutil_move src dst t1
  | None => (Raise NotADirectoryError, t)
  end.

(** Modelled from the spec: [fiftyone.utils.coco.download_coco_dataset_split]
    is not part of the sources.  A per-split remote archive: exactly the
    requested split's images and annotations are downloaded into scratch
    space, and their two paths are returned. *)
Definition ref_download_coco_dataset_split (r : remote) (scratch_dir : path)
  (split : option string) (year : string) (cleanup : bool)
  : fs_action (path * path) := fun t =>
  match split with
  | None => (Raise TypeError, t)
  | Some s =>
      let images_dir := join scratch_dir (s ++ year)%string in
      let anno_path :=
        join (join scratch_dir "annotations")
          ("instances_" ++ s ++ year ++ ".json")%string in
      match write_node images_dir (Dir (coco_images r year s)) t with
      | (Ok _, t1) =>
          match write_node anno_path (File (coco_annotations r year s)) t1 with
          | (Ok _, t2) => (Ok (images_dir, anno_path), t2)
          | (Raise e, t2) => (Raise e, t2)
          end
      | (Raise e, t1) => (Raise e, t1)
      end
  end.

(** Modelled from the spec:
    [fiftyone.utils.coco.load_coco_detection_annotations] is not part of the
    sources.  It parses the labels document; of the five values it returns,
    the class list and the image list are kept. *)
Definition ref_load_coco_detection_annotations (labels_path : path)
  : fs_reader (list string * list string) := fun t =>
  match fs_lookup labels_path t with
  | Some (File (Annotations classes images)) => Ok (classes, images)
  | Some _ => Raise MetadataInconsistencyError
  | None => Raise FileNotFoundError
  end.

(** Modelled from the spec: the whole-bundle download helpers of
    [fiftyone.utils.lfw], [.hmdb51] and [.ucf101] are not part of the
    sources.  A whole-bundle source performs the entire multi-split
    retrieval at once, writing every split under the dataset root. *)
Definition ref_download_bundle (splits : list (string * node))
  (dataset_dir : path) : fs_action unit := fun t =>
  match fs_makedirs dataset_dir t with
  | Some t1 => (Ok tt, fs_alter (put_all splits) dataset_dir t1)
  | None => (Raise NotADirectoryError, t)
  end.

(** The manually downloaded [bdd100k/] folder is present in [d] when it
    holds the [labels/] and [images/100k/] directories the class docstring
    lists. *)
Definition bdd100k_bundle_present (d : path) (t : node) : bool :=
  fs_isdir (join d "labels") t && fs_isdir (join (join d "images") "100k") t.

Definition bdd100k_split_tree (d : path) (sub : string) (t : node) : node :=
  match fs_lookup (join (join (join d "images") "100k") sub) t with
  | Some (Dir imgs) => Dir [("data", Dir imgs)]
  | _ => Dir [("data", Dir [])]
  end.

(** Modelled from the spec: [fiftyone.utils.bdd.wrangle_bdd100k_download]
    is not part of the sources.  A whole-bundle source that needs
    user-supplied data: when the data is absent the call raises
    [ManualDownloadRequiredError]; otherwise all splits are written under
    the dataset root, and the source files are removed unless
    [copy_files]. *)
Definition ref_wrangle_bdd100k_download (bdd100k_dir dataset_dir : path)
  (copy_files : bool) : fs_action unit := fun t =>
  if bdd100k_bundle_present bdd100k_dir t then
    let splits :=
      [ ("train", bdd100k_split_tree bdd100k_dir "train" t);
        ("validation", bdd100k_split_tree bdd100k_dir "val" t);
        ("test", bdd100k_split_tree bdd100k_dir "test" t) ] in
    match ref_download_bundle splits dataset_dir t with
    | (Ok _, t1) =>
        (Ok tt, if copy_files then t1
                else fs_unlink (join bdd100k_dir "images")
                       (fs_unlink (join bdd100k_dir "labels") t1))
    | (Raise e, t1) => (Raise e, t1)
    end
  else (Raise ManualDownloadRequiredError, t).

Definition is_dir_entry (e : string * node) : bool := negb (is_file e).

Definition count_files (n : node) : nat :=
  match n with
  | Dir kids => length (filter is_file kids)
  | File _ => 0
  end.

(** Modelled from the spec: the metadata importers of [fiftyone.utils.data]
    and [fiftyone.utils.bdd] are not part of the sources.  For a directory
    tree the classes are the names of the class directories and the samples
    are the files inside them; the other layouts keep their samples in a
    [data/] directory and have no class directories. *)
Definition ref_get_classes (i : importer) (d : path) : fs_reader (list string) :=
  fun t =>
  match fs_lookup d t with
  | Some (Dir kids) =>
      match i with
      | ImageClassificationDirectoryTreeImporter
      | VideoClassificationDirectoryTreeImporter =>
          Ok (map fst (filter is_dir_entry kids))
      | _ => Ok []
      end
  | Some (File _) => Raise NotADirectoryError
  | None => Raise FileNotFoundError
  end.

Definition ref_get_num_samples (i : importer) (d : path) : fs_reader nat :=
  fun t =>
  match fs_lookup d t with
  | Some (Dir kids) =>
      match i with
      | ImageClassificationDirectoryTreeImporter
      | VideoClassificationDirectoryTreeImporter =>
          Ok (list_sum (map (fun e => count_files (snd e)) kids))
      | _ => Ok (scan_files (join d "data") t)
      end
  | Some (File _) => Raise NotADirectoryError
  | None => Raise FileNotFoundError
  end.

Definition reference (r : remote) : collaborators :=
  {| download_google_drive_file := ref_download_google_drive_file r;
     extract_zip := ref_extract_zip;
     move_dir := ref_move_dir;
     move_file := ref_move_file;
     download_coco_dataset_split := ref_download_coco_dataset_split r;
     load_coco_detection_annotations := ref_load_coco_detection_annotations;
     download_lfw_dataset := fun d _ _ => ref_download_bundle (lfw_splits r) d;
     wrangle_bdd100k_download := ref_wrangle_bdd100k_download;
     download_hmdb51_dataset :=
       fun d _ fold _ => ref_download_bundle (hmdb51_splits r fold) d;
     download_ucf101_dataset :=
       fun d _ fold _ => ref_download_bundle (ucf101_splits r fold) d;
     get_classes := ref_get_classes;
     get_num_samples := ref_get_num_samples |}.

(** A small remote side and a few file systems to run on. *)

Definition img (s : string) : node := File (Bytes s).

Definition demo_remote : remote :=
  {| gdrive := fun id =>
       if (id =? "1UWTlFmdq8H-wdJHxVsAKpXBilY1CWwm_")%string
       then Some [("quickstart",
                   Dir [("data", Dir [("a.jpg", img "a"); ("b.jpg", img "b")]);
                        ("labels.json", File (Annotations ["cat"] ["a.jpg"; "b.jpg"]))])]
       else None;
     coco_images := fun _ _ =>
       [("1.jpg", img "1"); ("2.jpg", img "2"); ("3.jpg", img "3")];
     coco_annotations := fun _ _ => Annotations ["person"; "dog"] ["1.jpg"; "2.jpg"];
     lfw_splits :=
       [("train", Dir [("Bob", Dir [("b1.jpg", img "b1"); ("b2.jpg", img "b2")]);
                       ("Al", Dir [("a1.jpg", img "a1")])]);
        ("test", Dir [("Cy", Dir [("c1.jpg", img "c1")])])];
     hmdb51_splits := fun _ =>
       [("train", Dir [("run", Dir [("r1.avi", img "r1")])]);
        ("test", Dir [("run", Dir [("r2.avi", img "r2")])]);
        ("other", Dir [("run", Dir [])])];
     ucf101_splits := fun _ =>
       [("train", Dir [("jump", Dir [("j1.avi", img "j1")])]);
        ("test", Dir [("jump", Dir [("j2.avi", img "j2")])])] |}.

Definition demo : collaborators := reference demo_remote.

Definition empty_world : world := World (Dir []) [].

(** Where a caller puts things: the dataset under [/zoo/<name>/<split>],
    scratch space under [/zoo/<name>/tmp-download]. *)
Definition zoo_dir (n : string) (split : string) : path := ["zoo"; n; split].
Definition zoo_scratch (n : string) : path := ["zoo"; n; "tmp-download"].

(** ** Vocabulary for the statements *)

(** The directory a whole-bundle strategy checks: the split segment of
    [dataset_dir] is removed and the requested split is joined back. *)
Definition split_dir (dataset_dir : path) (split : string) : path :=
  join (dirname dataset_dir) split.

(** The strategies distributed as one bundle holding all splits. *)
Definition whole_bundle (self : zoo_dataset) : bool :=
  match self with
  | LabeledFacesInTheWildDataset
  | CityscapesDataset _ _ _
  | BDD100KDataset _ _
  | HMDB51Dataset _
  | UCF101Dataset _ => true
  | _ => false
  end.

(** The transport calls a whole-bundle strategy makes when its split
    directory is missing. *)
Definition bundle_retrieval (self : zoo_dataset) (dataset_dir scratch_dir : path)
  : list event :=
  match self with
  | LabeledFacesInTheWildDataset =>
      [EvDownloadLfwDataset (dirname dataset_dir) scratch_dir false]
  | BDD100KDataset source_dir copy_files =>
      [EvWrangleBdd100kDownload
         (match source_dir with Some d => d | None => scratch_dir end)
         (dirname dataset_dir) copy_files]
  | HMDB51Dataset fold =>
      [EvDownloadHmdb51Dataset (dirname dataset_dir) scratch_dir fold false]
  | UCF101Dataset fold =>
      [EvDownloadUcf101Dataset (dirname dataset_dir) scratch_dir fold false]
  | _ => []
  end.

(** The transport call the other strategies open with, whatever the state
    of the disk. *)
Definition opening_transport (self : zoo_dataset) (scratch_dir : path)
  (split : option string) : option event :=
  match self with
  | QuickstartDataset | VideoQuickstartDataset =>
      Some (EvDownloadGoogleDriveFile (_GDRIVE_ID self)
              (join scratch_dir "dataset.zip"))
  | COCO2014Dataset =>
      Some (EvDownloadCocoDatasetSplit scratch_dir split "2014" true)
  | COCO2017Dataset =>
      Some (EvDownloadCocoDatasetSplit scratch_dir split "2017" true)
  | _ => None
  end.

(** The relative paths of the regular files below a node: what a
    recursive scan of that part of the disk lists. *)
Fixpoint walk (n : node) : list path :=
  match n with
  | File _ => [[]]
  | Dir kids =>
      (fix walk_entries (l : list (string * node)) : list path :=
         match l with
         | [] => []
         | e :: rest => map (cons (fst e)) (walk (snd e)) ++ walk_entries rest
         end) kids
  end.

(** Which of the scanned files are samples of a layout: in a directory
    tree by class the files [<class>/<file>], in the other layouts the
    files [data/<file>]. *)
Definition is_sample (ty : dataset_type) (rel : path) : bool :=
  match ty with
  | ImageClassificationDirectoryTree | VideoClassificationDirectoryTree =>
      match rel with
      | [_; _] => true
      | _ => false
      end
  | _ =>
      match rel with
      | [d; _] => (d =? "data")%string
      | _ => false
      end
  end.

(** The count a scan of the directory [d] yields for layout [ty]. *)
Definition scan_layout (ty : dataset_type) (d : path) (t : node) : nat :=
  match fs_lookup d t with
  | Some n => length (filter (is_sample ty) (walk n))
  | None => 0
  end.

Fixpoint distinct (l : list string) : bool :=
  match l with
  | [] => true
  | a :: rest => negb (existsb (String.eqb a) rest) && distinct rest
  end.

(** The entries of the directory at [d] have distinct names, as the
    entries of a directory do. *)
Definition entries_distinct (d : path) (t : node) : bool :=
  match fs_lookup d t with
  | Some (Dir kids) => distinct (map fst kids)
  | _ => true
  end.

Definition is_nil (q : path) : bool :=
  match q with [] => true | _ :: _ => false end.

Definition is_single (q : path) : bool :=
  match q with [_] => true | _ => false end.

(** The layout each importer reads. *)
Definition importer_layout (i : importer) : dataset_type :=
  match i with
  | FiftyOneDatasetImporter => FiftyOneDataset
  | FiftyOneVideoLabelsDatasetImporter => FiftyOneVideoLabelsDataset
  | ImageClassificationDirectoryTreeImporter => ImageClassificationDirectoryTree
  | VideoClassificationDirectoryTreeImporter => VideoClassificationDirectoryTree
  | BDDDatasetImporter => BDDDataset
  end.

(** The directory a strategy lays its samples out in: [dataset_dir] itself
    for the quickstart and COCO strategies, the split directory for the
    whole-bundle ones. *)
Definition sample_root (self : zoo_dataset) (dataset_dir : path)
  (split : option string) : path :=
  if whole_bundle self then
    match split with
    | Some s => split_dir dataset_dir s
    | None => dataset_dir
    end
  else dataset_dir.

(** Worlds for the examples. *)

Definition two_files_world : world :=
  World (Dir [("s", Dir [("a", img "a"); ("b", img "b")])]) [].

Definition unpacked_world : world :=
  World
    (Dir [("zoo",
           Dir [("quickstart",
                 Dir [("info.json", img "{}");
                      ("tmp-download",
                       Dir [("quickstart",
                             Dir [("data", Dir [("a.jpg", img "a")]);
                                  ("labels.json", img "[]")])])])])])
    [].

Definition bdd_cached_world : world :=
  World
    (Dir [("zoo",
           Dir [("bdd100k",
                 Dir [("train", Dir [("data", Dir [("x.jpg", img "x")])])])])])
    [].

(** The world a call leaves behind. *)
Definition after {A} (m : M A) (w : world) : world := snd (m w).

(** Calls the examples run, with the reference collaborators. *)

Definition lfw_train : M prepared :=
  _download_and_prepare demo LabeledFacesInTheWildDataset
    (zoo_dir "lfw" "train") (zoo_scratch "lfw") (Some "train").

Definition hmdb51_train : M prepared :=
  _download_and_prepare demo (HMDB51Dataset 1%Z)
    (zoo_dir "hmdb51" "train") (zoo_scratch "hmdb51") (Some "train").

Definition hmdb51_test : M prepared :=
  _download_and_prepare demo (HMDB51Dataset 1%Z)
    (zoo_dir "hmdb51" "test") (zoo_scratch "hmdb51") (Some "test").

Definition coco2014_validation : M prepared :=
  _download_and_prepare demo COCO2014Dataset
    (zoo_dir "coco-2014-segmentation" "validation")
    (zoo_scratch "coco-2014-segmentation") (Some "validation").

Definition coco2017_train : M prepared :=
  _download_and_prepare demo COCO2017Dataset
    (zoo_dir "coco-2017-segmentation" "train")
    (zoo_scratch "coco-2017-segmentation") (Some "train").

(** * The CIFAR100 ingest script ([examples/datamodel/ingest_data.py])

    Here paths are the strings the script builds.  The script reads its
    label files through [eta.core.serial.read_json], draws from
    [random.random] and hands batches of samples to [Dataset.add_samples];
    the first two are parameters, the third is observed: the state keeps
    every batch the script hands over, in call order. *)

Fixpoint ends_with_slash (s : string) : bool :=
  match s with
  | EmptyString => false
  | String c EmptyString => Ascii.eqb c "/"
  | String _ rest => ends_with_slash rest
  end.

(** [posixpath.join] of two components. *)
Definition posix_join (a b : string) : string :=
  if String.prefix "/" b then b
  else if (a =? "")%string || ends_with_slash a then (a ++ b)%string
  else (a ++ "/" ++ b)%string.

Inductive json_value :=
| JInt (z : Z)
| JString (s : string).

(** A parsed JSON mapping, keys in iteration order. *)
Definition json_mapping := list (string * json_value).

Record ImageSample := { filepath : string; tags : list string }.

Record ingest_state := IngestState {
  draws : nat;                       (* calls made to [random.random] *)
  added : list (list ImageSample)    (* batches handed to [add_samples] *)
}.

(** The double nearest to the literal [0.7]. *)
Definition threshold : Q := 3152519739159347 # 4503599627370496.

Section Ingest.

(** [data_dir] as the script computes it from its own location; it is
    taken to hold no [%] directive, so that the templates format to
    [<data_dir>/<partition>_fine.json] and [..._coarse.json]. *)
Variable data_dir : string.
Variable read_json : string -> outcome json_mapping.
(** The values [random.random] returns, by call number. *)
Variable random_random : nat -> Q.

Definition dataset_name : string := "cifar100".

Definition partitions : list string := ["train"; "test"].

Definition fine_labels_path (partition : string) : string :=
  posix_join data_dir (partition ++ "_fine.json")%string.

Definition coarse_labels_path (partition : string) : string :=
  posix_join data_dir (partition ++ "_coarse.json")%string.

(** The list comprehension: one sample per key, one draw per sample. *)
Fixpoint make_samples (partition : string) (keys : list string) (n : nat)
  : list ImageSample * nat :=
  match keys with
  | [] => ([], n)
  | rel_img_path :: rest =>
      let sample :=
        {| filepath := posix_join data_dir rel_img_path;
           tags := [partition] ++
                   (if negb (Qle_bool (random_random n) threshold)
                    then ["rand"] else []) |} in
      let (more, n') := make_samples partition rest (S n) in
      (sample :: more, n')
  end.

(** The body of the [for partition in partitions] loop, then the loop. *)
Definition ingest_partition (partition : string) (st : ingest_state)
  : outcome unit * ingest_state :=
  match read_json (fine_labels_path partition) with
  | Raise e => (Raise e, st)
  | Ok fine_labels =>
      match read_json (coarse_labels_path partition) with
      | Raise e => (Raise e, st)
      | Ok coarse_labels =>
          let (samples, n') :=
            make_samples partition (map fst fine_labels) (draws st) in
          (Ok tt, IngestState n' (added st ++ [samples]))
      end
  end.

Fixpoint ingest_loop (ps : list string) (st : ingest_state)
  : outcome unit * ingest_state :=
  match ps with
  | [] => (Ok tt, st)
  | partition :: rest =>
      match ingest_partition partition st with
      | (Ok _, st') => ingest_loop rest st'
      | (Raise e, st') => (Raise e, st')
      end
  end.

Definition ingest : outcome unit * ingest_state :=
  ingest_loop partitions (IngestState 0 []).

End Ingest.

(** Inputs for the examples. *)

Definition demo_read_json (p : string) : outcome json_mapping :=
  if (p =? "/data/cifar100/train_fine.json")%string
  then Ok [("train/0.png", JInt 19); ("train/1.png", JInt 29)]
  else if (p =? "/data/cifar100/test_fine.json")%string
  then Ok [("test/0.png", JInt 49)]
  else if (p =? "/data/cifar100/train_coarse.json")%string
  then Ok [("train/0.png", JInt 11); ("train/1.png", JInt 15)]
  else if (p =? "/data/cifar100/test_coarse.json")%string
  then Ok [("test/0.png", JInt 10)]
  else Raise FileNotFoundError.

Definition demo_random (n : nat) : Q :=
  match n with
  | 1 => 9 # 10
  | _ => 1 # 2
  end.

(** ** Predicates used in the proofs *)

(** An entry-list rewrite that leaves every name but [n] alone. *)
Definition touches_only (n : string)
  (f : list (string * node) -> list (string * node)) : Prop :=
  forall kids x, x <> n -> assoc x (f kids) = assoc x kids.

(** The body of the loop of [_move_dir]. *)
Definition move_body (S D : path) (f : string) : M unit :=
  transport (EvShutilMove (join S f) D) (shutil_move (join S f) D).

(** A computation that only ever appends to the transport log. *)
Definition extends {A} (m : M A) : Prop :=
  forall w, exists evs, log (snd (m w)) = log w ++ evs.

(** The tags the ingest script gives a sample of [partition]. *)
Definition tagged (partition : string) (s : ImageSample) : Prop :=
  tags s = [partition] \/ tags s = [partition; "rand"].

(** ** Further vocabulary *)

(** The retrieval helper a whole-bundle strategy calls when its split
    directory is missing, with the arguments the strategy passes. *)
Definition bundle_action (C : collaborators) (self : zoo_dataset)
  (dataset_dir scratch_dir : path) : fs_action unit :=
  match self with
  | LabeledFacesInTheWildDataset =>
      download_lfw_dataset C (dirname dataset_dir) scratch_dir false
  | BDD100KDataset source_dir copy_files =>
      wrangle_bdd100k_download C
        (match source_dir with Some d => d | None => scratch_dir end)
        (dirname dataset_dir) copy_files
  | HMDB51Dataset fold =>
      download_hmdb51_dataset C (dirname dataset_dir) scratch_dir fold false
  | UCF101Dataset fold =>
      download_ucf101_dataset C (dirname dataset_dir) scratch_dir fold false
  | _ => fun t => (Ok tt, t)
  end.

(** The year a COCO strategy passes to its download helper. *)
Definition coco_year (self : zoo_dataset) : option string :=
  match self with
  | COCO2014Dataset => Some "2014"
  | COCO2017Dataset => Some "2017"
  | _ => None
  end.

(** Whether the helper behind [opening_transport] raises, and the disk it
    leaves. *)
Definition opening_action (C : collaborators) (self : zoo_dataset)
  (scratch_dir : path) (split : option string) : fs_action unit := fun t =>
  match self with
  | QuickstartDataset | VideoQuickstartDataset =>
      download_google_drive_file C (_GDRIVE_ID self)
        (join scratch_dir "dataset.zip") t
  | COCO2014Dataset | COCO2017Dataset =>
      let year := match coco_year self with Some y => y | None => "" end in
      match download_coco_dataset_split C scratch_dir split year true t with
      | (Ok _, t') => (Ok tt, t')
      | (Raise e, t') => (Raise e, t')
      end
  | _ => (Ok tt, t)
  end.

(** The layout tag each class returns. *)
Definition layout_of (self : zoo_dataset) : dataset_type :=
  match self with
  | QuickstartDataset => FiftyOneDataset
  | VideoQuickstartDataset => FiftyOneVideoLabelsDataset
  | COCO2014Dataset | COCO2017Dataset => COCODetectionDataset
  | LabeledFacesInTheWildDataset => ImageClassificationDirectoryTree
  | CityscapesDataset _ _ _ => FiftyOneDataset
  | BDD100KDataset _ _ => BDDDataset
  | HMDB51Dataset _ | UCF101Dataset _ => VideoClassificationDirectoryTree
  end.

(** The classes that return a class list rather than [None]. *)
Definition reports_classes (self : zoo_dataset) : bool :=
  match self with
  | VideoQuickstartDataset | BDD100KDataset _ _ => false
  | _ => true
  end.

(** Two instances of the same class, whatever their parameters. *)
Definition same_class (a b : zoo_dataset) : bool :=
  match a, b with
  | QuickstartDataset, QuickstartDataset
  | VideoQuickstartDataset, VideoQuickstartDataset
  | COCO2014Dataset, COCO2014Dataset
  | COCO2017Dataset, COCO2017Dataset
  | LabeledFacesInTheWildDataset, LabeledFacesInTheWildDataset
  | CityscapesDataset _ _ _, CityscapesDataset _ _ _
  | BDD100KDataset _ _, BDD100KDataset _ _
  | HMDB51Dataset _, HMDB51Dataset _
  | UCF101Dataset _, UCF101Dataset _ => true
  | _, _ => false
  end.

(** More worlds and inputs for the examples. *)

Definition taken_name_world : world :=
  World
    (Dir [("s", Dir [("a", img "a"); ("b", img "b"); ("c", img "c")]);
          ("d", Dir [("b", img "old")])])
    [].

Definition cityscapes_world : world :=
  World
    (Dir [("zoo",
           Dir [("cityscapes",
                 Dir [("train", Dir [("data", Dir [("t.png", img "t")])]);
                      ("test", Dir [("data", Dir [])]);
                      ("validation", Dir [("data", Dir [])])])])])
    [].

(** Modelled from the spec: [FiftyOneDatasetImporter.get_classes] is not
    part of the sources.  A variant of the reference importers in which a
    FiftyOne dataset lists its classes in a [metadata.json] document beside
    its [data/] directory. *)
Definition catalogue_get_classes (i : importer) (d : path)
  : fs_reader (list string) := fun t =>
  match i with
  | FiftyOneDatasetImporter =>
      match fs_lookup (join d "metadata.json") t with
      | Some (File (Annotations classes _)) => Ok classes
      | Some _ => Raise MetadataInconsistencyError
      | None => Raise FileNotFoundError
      end
  | _ => ref_get_classes i d t
  end.

Definition catalogued : collaborators :=
  {| download_google_drive_file := download_google_drive_file demo;
     extract_zip := extract_zip demo;
     move_dir := move_dir demo;
     move_file := move_file demo;
     download_coco_dataset_split := download_coco_dataset_split demo;
     load_coco_detection_annotations := load_coco_detection_annotations demo;
     download_lfw_dataset := download_lfw_dataset demo;
     wrangle_bdd100k_download := wrangle_bdd100k_download demo;
     download_hmdb51_dataset := download_hmdb51_dataset demo;
     download_ucf101_dataset := download_ucf101_dataset demo;
     get_classes := catalogue_get_classes;
     get_num_samples := ref_get_num_samples |}.

Definition cityscapes_labelled_world : world :=
  World
    (Dir [("zoo",
           Dir [("cityscapes",
                 Dir [("train",
                       Dir [("data", Dir [("t1.png", img "t1"); ("t2.png", img "t2")]);
                            ("metadata.json",
                             File (Annotations ["road"; "car"] []))]);
                      ("test",
                       Dir [("data", Dir []);
                            ("metadata.json", File (Annotations ["sky"] []))]);
                      ("validation",
                       Dir [("data", Dir [("v1.png", img "v1")]);
                            ("metadata.json",
                             File (Annotations ["person"; "building"] []))])])])])
    [].

Definition no_coarse_read_json (p : string) : outcome json_mapping :=
  if (p =? "/data/cifar100/train_fine.json")%string
  then Ok [("train/0.png", JInt 19)]
  else Raise FileNotFoundError.

Definition train_only_read_json (p : string) : outcome json_mapping :=
  if (p =? "/data/cifar100/train_fine.json")%string
  then Ok [("train/0.png", JInt 19); ("train/1.png", JInt 29)]
  else if (p =? "/data/cifar100/train_coarse.json")%string
  then Ok [("train/0.png", JInt 11); ("train/1.png", JInt 15)]
  else Raise FileNotFoundError.

Definition quickstart_all : M prepared :=
  _download_and_prepare demo QuickstartDataset ["zoo"; "quickstart"]
    (zoo_scratch "quickstart") None.

(** A disk on which [/zoo/blocked] is a regular file. *)
Definition blocked_world : world :=
  World (Dir [("zoo", Dir [("blocked", img "file")])]) [].

(** * Properties *)

(** ** Paths *)

Lemma dirname_join (p : path) (n : string) : dirname (join p n) = p.
Proof. unfold dirname, join. apply removelast_last. Qed.

Lemma basename_join (p : path) (n : string) : basename (join p n) = n.
Proof. unfold basename, join. apply last_last. Qed.

Lemma path_eqb_eq (p q : path) : path_eqb p q = true <-> p = q.
Proof.
  revert q. induction p as [|a p IH]; intros [|b q]; simpl; split;
    try congruence; try reflexivity.
  - intros H. apply andb_true_iff in H as [Hab Hpq].
    apply String.eqb_eq in Hab. apply IH in Hpq. congruence.
  - intros H. injection H as -> ->. rewrite String.eqb_refl. simpl.
    now apply IH.
Qed.

Lemma is_prefix_refl (p : path) : is_prefix p p = true.
Proof. induction p; simpl; [reflexivity|]. now rewrite String.eqb_refl. Qed.

Lemma is_prefix_join_r (p q : path) (n m : string) :
  is_prefix (join p n) (join q m) = true -> is_prefix p q = true.
Proof.
  unfold join. revert q. induction p as [|a p IH]; intros q H; [reflexivity|].
  destruct q as [|b q]; simpl in *.
  - apply andb_true_iff in H as [_ H]. destruct p; discriminate.
  - apply andb_true_iff in H as [Hab H]. rewrite Hab. simpl. now apply IH.
Qed.

(** ** Directory entries *)

Lemma assoc_set_kid_same s c kids : assoc s (set_kid s c kids) = Some c.
Proof.
  induction kids as [|[n d] rest IH]; simpl.
  - now rewrite String.eqb_refl.
  - destruct (n =? s)%string eqn:E; simpl; rewrite E; auto.
Qed.

Lemma assoc_set_kid_other s x c kids :
  x <> s -> assoc x (set_kid s c kids) = assoc x kids.
Proof.
  intros Hx. induction kids as [|[n d] rest IH]; simpl.
  - destruct (s =? x)%string eqn:E; [|reflexivity].
    apply String.eqb_eq in E. congruence.
  - destruct (n =? s)%string eqn:E; simpl.
    + apply String.eqb_eq in E. subst n.
      destruct (s =? x)%string eqn:E'; [|reflexivity].
      apply String.eqb_eq in E'. congruence.
    + destruct (n =? x)%string; auto.
Qed.

Lemma assoc_del_kid_other s x kids :
  x <> s -> assoc x (del_kid s kids) = assoc x kids.
Proof.
  intros Hx. unfold del_kid. induction kids as [|[n d] rest IH]; simpl; auto.
  destruct (n =? s)%string eqn:E; simpl.
  - apply String.eqb_eq in E. subst n.
    destruct (s =? x)%string eqn:E'; auto.
    apply String.eqb_eq in E'. congruence.
  - destruct (n =? x)%string; auto.
Qed.

Lemma del_kid_fresh s kids : ~ In s (map fst kids) -> del_kid s kids = kids.
Proof.
  unfold del_kid. induction kids as [|[n d] rest IH]; simpl; intros H; auto.
  destruct (n =? s)%string eqn:E.
  - apply String.eqb_eq in E. tauto.
  - simpl. f_equal. apply IH. tauto.
Qed.

Lemma del_kid_head s c rest :
  ~ In s (map fst rest) -> del_kid s ((s, c) :: rest) = rest.
Proof.
  intros H. unfold del_kid. simpl. rewrite String.eqb_refl. simpl.
  now apply del_kid_fresh.
Qed.

Lemma assoc_none_iff s kids : assoc s kids = None <-> ~ In s (map fst kids).
Proof.
  induction kids as [|[n d] rest IH]; simpl; [tauto|].
  destruct (n =? s)%string eqn:E.
  - apply String.eqb_eq in E. split; [discriminate|tauto].
  - apply String.eqb_neq in E. tauto.
Qed.

Lemma set_kid_touches_only n c : touches_only n (set_kid n c).
Proof. intros kids x Hx. now apply assoc_set_kid_other. Qed.

Lemma del_kid_touches_only n : touches_only n (del_kid n).
Proof. intros kids x Hx. now apply assoc_del_kid_other. Qed.

(** ** Lookup after an update *)

Lemma fs_lookup_app p q t :
  fs_lookup (p ++ q) t =
  match fs_lookup p t with Some c => fs_lookup q c | None => None end.
Proof.
  revert t. induction p as [|s p IH]; intros t; simpl; [reflexivity|].
  destruct t as [d|kids]; [reflexivity|].
  destruct (assoc s kids); [apply IH|reflexivity].
Qed.

Lemma fs_lookup_alter_under f p q t kids :
  fs_lookup p t = Some (Dir kids) ->
  fs_lookup (p ++ q) (fs_alter f p t) = fs_lookup q (Dir (f kids)).
Proof.
  revert t. induction p as [|s p IH]; intros t H; simpl in *.
  - injection H as ->. reflexivity.
  - destruct t as [d|ks]; [discriminate|].
    destruct (assoc s ks) as [c|] eqn:E; [|discriminate].
    simpl. rewrite assoc_set_kid_same. now apply IH.
Qed.

Lemma fs_lookup_alter_here f p t kids :
  fs_lookup p t = Some (Dir kids) ->
  fs_lookup p (fs_alter f p t) = Some (Dir (f kids)).
Proof.
  intros H. pose proof (fs_lookup_alter_under f p [] t kids H) as E.
  now rewrite app_nil_r in E.
Qed.

Lemma fs_lookup_prefix_none p q t :
  is_prefix p q = true -> fs_lookup p t = None -> fs_lookup q t = None.
Proof.
  revert q t. induction p as [|a p IH]; intros q t Hpre Hnone; simpl in *.
  - discriminate.
  - destruct q as [|b q]; [discriminate|].
    apply andb_true_iff in Hpre as [Hab Hpre]. apply String.eqb_eq in Hab.
    subst b. simpl. destruct t as [d|ks]; [reflexivity|].
    destruct (assoc a ks); [now apply IH|reflexivity].
Qed.

(** The frame rule: an update of entry [n] of directory [p] is invisible at
    every path that is neither [p] or an ancestor of it, nor at or below
    [p/n]. *)
Lemma fs_lookup_alter_frame f n p q t :
  touches_only n f ->
  is_prefix (join p n) q = false ->
  is_prefix q p = false ->
  fs_lookup q (fs_alter f p t) = fs_lookup q t.
Proof.
  intros Hf. unfold join. revert q t.
  induction p as [|s p IH]; intros q t Hunder Hanc.
  - destruct q as [|b q]; [discriminate|]. simpl in Hunder.
    assert (Hb : b <> n).
    { intros ->. rewrite String.eqb_refl in Hunder. discriminate. }
    simpl. destruct t as [d|ks]; [reflexivity|]. now rewrite Hf.
  - destruct q as [|b q]; [discriminate|]. simpl in Hunder, Hanc.
    simpl. destruct t as [d|ks]; [reflexivity|].
    destruct (assoc s ks) as [c|] eqn:E; [|reflexivity]. simpl.
    destruct (String.eqb_spec b s) as [->|Hbs].
    + rewrite String.eqb_refl in Hunder. simpl in Hunder, Hanc.
      rewrite assoc_set_kid_same, E. now apply IH.
    + rewrite assoc_set_kid_other by assumption. reflexivity.
Qed.

Lemma fs_isdir_alter f p q t :
  is_prefix p q = false -> fs_isdir q (fs_alter f p t) = fs_isdir q t.
Proof.
  unfold fs_isdir. revert q t. induction p as [|s p IH]; intros q t Hpq.
  - discriminate.
  - destruct q as [|b q]; simpl in *.
    + destruct t as [d|ks]; [reflexivity|]. now destruct (assoc s ks).
    + destruct t as [d|ks]; [reflexivity|].
      destruct (assoc s ks) as [c|] eqn:E; [|reflexivity]. simpl.
      destruct (String.eqb_spec s b) as [->|Hsb].
      * simpl in Hpq. rewrite assoc_set_kid_same, E. now apply IH.
      * rewrite assoc_set_kid_other by congruence. reflexivity.
Qed.

(** ** [shutil.move] into an existing directory, and [_move_dir] *)

Lemma is_prefix_join (p : path) (n : string) : is_prefix p (join p n) = true.
Proof. unfold join. induction p; simpl; [reflexivity|]. now rewrite String.eqb_refl. Qed.

Lemma fs_lookup_join p n t kids :
  fs_lookup p t = Some (Dir kids) -> fs_lookup (join p n) t = assoc n kids.
Proof.
  intros H. unfold join. rewrite fs_lookup_app, H. simpl.
  now destruct (assoc n kids).
Qed.

Lemma fs_isdir_inv p t :
  fs_isdir p t = true -> exists kids, fs_lookup p t = Some (Dir kids).
Proof.
  unfold fs_isdir. destruct (fs_lookup p t) as [[d|kids]|]; try discriminate.
  intros _. now exists kids.
Qed.

Lemma shutil_move_into_dir (S D : path) (n : string) (c : node) (t : node) :
  fs_lookup (join S n) t = Some c ->
  fs_isdir D t = true ->
  fs_lookup (join D n) t = None ->
  is_prefix S D = false ->
  shutil_move (join S n) D t =
  (Ok tt, fs_alter (set_kid n c) D (fs_alter (del_kid n) S t)).
Proof.
  intros Hsrc Hdir Hfree Hpre. unfold shutil_move. rewrite Hdir.
  assert (E1 : path_eqb (join S n) D = false).
  { destruct (path_eqb (join S n) D) eqn:E; [|reflexivity].
    apply path_eqb_eq in E. subst D. now rewrite is_prefix_join in Hpre. }
  rewrite E1. simpl. rewrite basename_join.
  unfold fs_exists at 1. rewrite Hfree.
  unfold os_rename. rewrite Hsrc.
  assert (E2 : path_eqb (join S n) (join D n) = false).
  { destruct (path_eqb (join S n) (join D n)) eqn:E; [|reflexivity].
    apply path_eqb_eq in E. apply app_inj_tail in E as [-> _].
    now rewrite is_prefix_refl in Hpre. }
  assert (E3 : is_prefix (join S n) (join D n) = false).
  { destruct (is_prefix (join S n) (join D n)) eqn:E; [|reflexivity].
    apply is_prefix_join_r in E. congruence. }
  rewrite E2, E3, Hfree, dirname_join, Hdir.
  unfold fs_place, fs_unlink. now rewrite !basename_join, !dirname_join.
Qed.

Lemma move_loop (S D : path) :
  is_prefix S D = false ->
  forall (rem : list (string * node)) (t : node) (lg : list event),
    NoDup (map fst rem) ->
    fs_lookup S t = Some (Dir rem) ->
    fs_isdir D t = true ->
    (forall n, In n (map fst rem) -> fs_lookup (join D n) t = None) ->
    exists t' lg',
      for_each (map fst rem) (move_body S D) (World t lg) = (Ok tt, World t' lg') /\
      fs_lookup S t' = Some (Dir []) /\
      fs_isdir D t' = true /\
      (forall n c, In (n, c) rem -> fs_lookup (join D n) t' = Some c) /\
      (forall m, ~ In m (map fst rem) -> is_prefix (join D m) S = false ->
                 fs_lookup (join D m) t' = fs_lookup (join D m) t).
Proof.
  intros Hpre rem. induction rem as [|[n c] rest IH]; intros t lg Hnd HS HD Hfree.
  - exists t, lg. simpl. repeat split; auto. intros n c [].
  - simpl in Hnd. inversion Hnd as [|? ? Hn Hnd']; subst.
    (* the paths involved *)
    assert (Hoff : forall m, fs_lookup (join D m) t = None ->
                             is_prefix (join D m) S = false).
    { intros m Hm. destruct (is_prefix (join D m) S) eqn:E; [|reflexivity].
      rewrite (fs_lookup_prefix_none _ _ _ E Hm) in HS. discriminate. }
    assert (Hcross : forall m, is_prefix (join S n) (join D m) = false).
    { intros m. destruct (is_prefix (join S n) (join D m)) eqn:E; [|reflexivity].
      apply is_prefix_join_r in E. congruence. }
    assert (Hn_off : is_prefix (join D n) S = false).
    { apply Hoff, Hfree. now left. }
    (* one move *)
    assert (Hsrc : fs_lookup (join S n) t = Some c).
    { rewrite (fs_lookup_join _ _ _ _ HS). simpl. now rewrite String.eqb_refl. }
    pose proof (shutil_move_into_dir S D n c t Hsrc HD
                  (Hfree n (or_introl eq_refl)) Hpre) as Hstep.
    set (t0 := fs_alter (del_kid n) S t) in *.
    set (t1 := fs_alter (set_kid n c) D t0) in *.
    assert (HD0 : fs_isdir D t0 = true).
    { unfold t0. now rewrite fs_isdir_alter. }
    destruct (fs_isdir_inv _ _ HD0) as [dk0 Hdk0].
    assert (HS1 : fs_lookup S t1 = Some (Dir rest)).
    { unfold t1.
      rewrite (fs_lookup_alter_frame _ n) by
        (auto using set_kid_touches_only).
      unfold t0. rewrite (fs_lookup_alter_here _ _ _ _ HS).
      now rewrite del_kid_head. }
    assert (HD1 : fs_isdir D t1 = true).
    { unfold t1, fs_isdir. now rewrite (fs_lookup_alter_here _ _ _ _ Hdk0). }
    assert (Hat1 : forall m, fs_lookup (join D m) t1 = assoc m (set_kid n c dk0)).
    { intros m. unfold t1, join.
      rewrite (fs_lookup_alter_under _ _ _ _ _ Hdk0). simpl.
      now destruct (assoc m (set_kid n c dk0)). }
    assert (Hkeep : forall m, m <> n -> is_prefix (join D m) S = false ->
                              fs_lookup (join D m) t1 = fs_lookup (join D m) t).
    { intros m Hm Hoffm. rewrite Hat1, assoc_set_kid_other by assumption.
      rewrite <- (fs_lookup_join _ _ _ _ Hdk0). unfold t0.
      apply (fs_lookup_alter_frame _ n); auto using del_kid_touches_only. }
    (* the remaining moves *)
    destruct (IH t1 (lg ++ [EvShutilMove (join S n) D]) Hnd' HS1 HD1)
      as (t' & lg' & Hrun & HS' & HD' & Hmoved & Hframe).
    { intros m Hm. assert (m <> n) by (intros ->; contradiction).
      assert (Hm0 : fs_lookup (join D m) t = None) by (apply Hfree; now right).
      rewrite Hkeep; auto. }
    exists t', lg'. split; [|split; [|split; [|split]]]; auto.
    + simpl. unfold bind, move_body at 1, transport. simpl.
      rewrite Hstep. exact Hrun.
    + intros m d [Heq|Hin].
      * injection Heq as -> ->. rewrite Hframe by assumption.
        rewrite Hat1. apply assoc_set_kid_same.
      * now apply Hmoved.
    + intros m Hm Hoffm. simpl in Hm.
      rewrite Hframe by tauto. apply Hkeep; [|assumption].
      intros ->. tauto.
Qed.

(** ** The transport log only grows *)

Lemma extends_ret {A} (a : A) : extends (ret a).
Proof. intros w. exists []. simpl. now rewrite app_nil_r. Qed.

Lemma extends_raise {A} (e : exn) : extends (@raise A e).
Proof. intros w. exists []. simpl. now rewrite app_nil_r. Qed.

Lemma extends_inspect {A} (r : fs_reader A) : extends (inspect r).
Proof. intros w. exists []. simpl. now rewrite app_nil_r. Qed.

Lemma extends_exists (p : path) : extends (os_path_exists p).
Proof. intros w. exists []. simpl. now rewrite app_nil_r. Qed.

Lemma extends_transport {A} ev (act : fs_action A) : extends (transport ev act).
Proof.
  intros w. exists [ev]. unfold transport. now destruct (act (fs w)).
Qed.

Lemma extends_bind {A B} (m : M A) (k : A -> M B) :
  extends m -> (forall a, extends (k a)) -> extends (bind m k).
Proof.
  intros Hm Hk w. unfold bind. destruct (Hm w) as [e1 H1].
  destruct (m w) as [[a|e] w1]; simpl in H1.
  - destruct (Hk a w1) as [e2 H2]. exists (e1 ++ e2).
    now rewrite H2, H1, app_assoc.
  - now exists e1.
Qed.

Lemma extends_join p s : extends (os_path_join p s).
Proof. destruct s; [apply extends_ret|apply extends_raise]. Qed.

Lemma extends_for_each {A} (l : list A) (body : A -> M unit) :
  (forall a, extends (body a)) -> extends (for_each l body).
Proof.
  intros Hb. induction l; simpl; [apply extends_ret|].
  apply extends_bind; auto.
Qed.

Lemma extends_move_dir src dst : extends (_move_dir src dst).
Proof.
  unfold _move_dir, os_listdir. apply extends_bind; [apply extends_inspect|].
  intros names. apply extends_for_each. intros f. apply extends_transport.
Qed.

Create HintDb zoo_log.
#[local] Hint Resolve extends_ret extends_raise extends_inspect extends_exists
  extends_transport extends_join extends_move_dir : zoo_log.

Ltac extends_steps :=
  repeat first
    [ solve [auto with zoo_log]
    | match goal with |- extends (if ?b then _ else _) => destruct b end
    | apply extends_bind; [|intros ?] ].

Lemma extends_download_and_prepare C self dataset_dir scratch_dir split :
  extends (_download_and_prepare C self dataset_dir scratch_dir split).
Proof.
  destruct self; cbn [_download_and_prepare];
    unfold importer_get_classes, importer_get_num_samples;
    extends_steps.
Qed.

(** The first transport call of a computation that opens with one. *)
Lemma opens_with {A B} ev (act : fs_action A) (k : A -> M B) w :
  (forall a, extends (k a)) ->
  exists rest, log (snd (bind (transport ev act) k w)) = log w ++ ev :: rest.
Proof.
  intros Hk. unfold bind, transport.
  destruct (act (fs w)) as [[a|e] t1].
  - destruct (Hk a (World t1 (log w ++ [ev]))) as [evs H]. exists evs.
    rewrite H. simpl. now rewrite <- app_assoc.
  - now exists [].
Qed.

(** ** Whole-bundle strategies: the existence check *)

Ltac run_step :=
  match goal with
  | |- context [let (_, _) := ?act (fs ?w) in _] =>
      destruct (act (fs w)) as [[?|?] ?]
  | |- context [match ?x with Ok _ => _ | Raise _ => _ end] => destruct x
  end.

Lemma whole_bundle_hit C self dataset_dir scratch_dir s w :
  whole_bundle self = true ->
  fs_exists (split_dir dataset_dir s) (fs w) = true ->
  after (_download_and_prepare C self dataset_dir scratch_dir (Some s)) w = w.
Proof.
  unfold split_dir, after. intros Hb Hhit.
  destruct self; try discriminate Hb;
    cbn [_download_and_prepare];
    unfold importer_get_classes,
      importer_get_num_samples, bind, os_path_join, os_path_exists, inspect, ret;
    cbn [fst snd]; rewrite Hhit; cbn [negb];
    repeat (run_step; cbn [fst snd]; try reflexivity); reflexivity.
Qed.

Lemma whole_bundle_log C self dataset_dir scratch_dir s w :
  whole_bundle self = true ->
  log (after (_download_and_prepare C self dataset_dir scratch_dir (Some s)) w) =
  log w ++ (if fs_exists (split_dir dataset_dir s) (fs w) then []
            else bundle_retrieval self dataset_dir scratch_dir).
Proof.
  intros Hb. destruct (fs_exists (split_dir dataset_dir s) (fs w)) eqn:Hhit.
  - rewrite whole_bundle_hit by assumption. now rewrite app_nil_r.
  - unfold split_dir, after in *.
    destruct self; try discriminate Hb;
      cbn [_download_and_prepare bundle_retrieval];
      unfold importer_get_classes,
        importer_get_num_samples, bind, os_path_join, os_path_exists, inspect,
        ret, transport;
      cbn [fst snd]; rewrite Hhit; cbn [negb fs log];
      repeat (run_step; cbn [fst snd fs log]; try reflexivity);
      try reflexivity; now rewrite app_nil_r.
Qed.

(** ** Strategies without an existence check *)

Lemma opening_transport_logged C self dataset_dir scratch_dir split w ev :
  opening_transport self scratch_dir split = Some ev ->
  exists rest,
    log (after (_download_and_prepare C self dataset_dir scratch_dir split) w)
    = log w ++ ev :: rest.
Proof.
  intros E. unfold after.
  destruct self; try discriminate E; injection E as <-;
    cbn [_download_and_prepare];
    apply opens_with; intros ?;
    unfold importer_get_classes, importer_get_num_samples; extends_steps.
Qed.

(** ** Reading a successful run backwards *)

Lemma bind_ok {A B} (m : M A) (k : A -> M B) w b w' :
  bind m k w = (Ok b, w') ->
  exists a w1, m w = (Ok a, w1) /\ k a w1 = (Ok b, w').
Proof.
  unfold bind. destruct (m w) as [[a|e] w1]; [|discriminate].
  intros H. now exists a, w1.
Qed.

Lemma ret_ok {A} (a b : A) w w' : ret a w = (Ok b, w') -> a = b /\ w' = w.
Proof. unfold ret. intros H. now injection H as -> ->. Qed.

Lemma inspect_ok {A} (r : fs_reader A) w a w' :
  inspect r w = (Ok a, w') -> r (fs w) = Ok a /\ w' = w.
Proof. unfold inspect. intros H. now injection H as -> ->. Qed.

Lemma exists_ok p w b w' :
  os_path_exists p w = (Ok b, w') -> b = fs_exists p (fs w) /\ w' = w.
Proof. unfold os_path_exists. intros H. now injection H as <- <-. Qed.

Lemma join_ok p s w q w' :
  os_path_join p s w = (Ok q, w') -> exists n, s = Some n /\ q = join p n /\ w' = w.
Proof.
  destruct s as [n|]; simpl; [|discriminate].
  unfold ret. intros H. injection H as <- <-. now exists n.
Qed.

Lemma transport_ok {A} ev (act : fs_action A) w a w' :
  transport ev act w = (Ok a, w') ->
  exists t1, act (fs w) = (Ok a, t1) /\ w' = World t1 (log w ++ [ev]).
Proof.
  unfold transport. destruct (act (fs w)) as [o t1]. intros H.
  injection H as -> <-. now exists t1.
Qed.

Ltac inv_run :=
  repeat
    (cbn beta in *;
     match goal with
     | H : bind _ _ _ = (Ok _, _) |- _ =>
         apply bind_ok in H; destruct H as (? & ? & ? & ?)
     | H : ret _ _ = (Ok _, _) |- _ => apply ret_ok in H; destruct H; subst
     | H : inspect _ _ = (Ok _, _) |- _ =>
         apply inspect_ok in H; destruct H; subst
     | H : importer_get_classes _ _ _ _ = (Ok _, _) |- _ =>
         apply inspect_ok in H; destruct H; subst
     | H : importer_get_num_samples _ _ _ _ = (Ok _, _) |- _ =>
         apply inspect_ok in H; destruct H; subst
     | H : os_path_exists _ _ = (Ok _, _) |- _ =>
         apply exists_ok in H; destruct H; subst
     | H : os_path_join _ _ _ = (Ok _, _) |- _ =>
         apply join_ok in H; destruct H as (? & ? & ? & ?); subst
     | H : transport _ _ _ = (Ok _, _) |- _ =>
         apply transport_ok in H; destruct H as (? & ? & ?); subst
     end).


(** ** The claims *)

(** C1 (the code departs from the claim).  On a cache miss every strategy is
    to retrieve and populate the split.  The cityscapes strategy does not:
    whatever the disk holds and whatever split is asked for, its
    [_download_and_prepare] makes no transport call and leaves the file
    system as it found it. *)
Theorem cityscapes_acquire_never_retrieves C fine coarse person
  dataset_dir scratch_dir split w :
  after (_download_and_prepare C (CityscapesDataset fine coarse person)
           dataset_dir scratch_dir split) w = w.
Proof.
  unfold after. cbn [_download_and_prepare].
  unfold importer_get_classes, importer_get_num_samples, bind, os_path_join,
    os_path_exists, inspect, ret, raise.
  destruct split as [s|]; [|reflexivity]. cbn [fst snd].
  destruct (fs_exists (join (dirname dataset_dir) s) (fs w)); cbn [negb];
    repeat (run_step; cbn [fst snd]; try reflexivity); reflexivity.
Qed.

(** The same call on an empty disk, with the reference collaborators. *)
Example cityscapes_on_empty_disk :
  _download_and_prepare demo (CityscapesDataset false false false)
    (zoo_dir "cityscapes" "train") (zoo_scratch "cityscapes") (Some "train")
    empty_world
  = (Raise FileNotFoundError, empty_world).
Proof. reflexivity. Qed.

(** Its siblings do retrieve on a miss. *)
Example lfw_on_empty_disk :
  log (after (_download_and_prepare demo LabeledFacesInTheWildDataset
                (zoo_dir "lfw" "train") (zoo_scratch "lfw") (Some "train"))
         empty_world)
  = [EvDownloadLfwDataset ["zoo"; "lfw"] (zoo_scratch "lfw") false].
Proof. reflexivity. Qed.

(** C2, as amended.  For a whole-bundle strategy that retrieves (lfw,
    bdd100k, hmdb51, ucf101), two calls in sequence for the same split,
    starting from a miss, retrieve exactly once: the first call makes the
    one retrieval call, and when it returns with the split directory in
    place the second call makes no transport call, changes nothing and
    returns the same result. *)
Theorem whole_bundle_acquire_twice C self dataset_dir scratch_dir s w ev r w1 :
  bundle_retrieval self dataset_dir scratch_dir = [ev] ->
  fs_exists (split_dir dataset_dir s) (fs w) = false ->
  _download_and_prepare C self dataset_dir scratch_dir (Some s) w = (Ok r, w1) ->
  fs_exists (split_dir dataset_dir s) (fs w1) = true ->
  log w1 = log w ++ [ev] /\
  _download_and_prepare C self dataset_dir scratch_dir (Some s) w1 = (Ok r, w1).
Proof.
  intros Hev Hmiss Hrun Hhit.
  assert (Hb : whole_bundle self = true) by (destruct self; try discriminate; reflexivity).
  split.
  - pose proof (whole_bundle_log C self dataset_dir scratch_dir s w Hb) as Hlog.
    unfold after in Hlog. rewrite Hrun, Hmiss, Hev in Hlog. exact Hlog.
  - unfold split_dir in *.
    destruct self; try discriminate Hb; try discriminate Hev;
      cbn [_download_and_prepare] in *;
      inv_run;
      repeat match goal with
      | E : Some _ = Some _ |- _ => injection E as <-
      end;
      rewrite Hmiss in *; cbn [negb] in *; inv_run; cbn [fs] in *;
      unfold importer_get_classes, importer_get_num_samples, bind,
        os_path_join, os_path_exists, inspect, ret;
      cbn [fs]; rewrite Hhit; cbn [negb fs fst snd];
      repeat match goal with
      | E : _ = Ok _ |- _ => rewrite E; clear E; cbn [fs fst snd]
      end; reflexivity.
Qed.

Lemma whole_bundle_acquire_twice_witness :
  log (after lfw_train empty_world) =
    log empty_world ++
    [EvDownloadLfwDataset ["zoo"; "lfw"] (zoo_scratch "lfw") false] /\
  lfw_train (after lfw_train empty_world) =
    (Ok (ImageClassificationDirectoryTree, 3, Some ["Al"; "Bob"; "Cy"]),
     after lfw_train empty_world).
Proof.
  apply (whole_bundle_acquire_twice demo LabeledFacesInTheWildDataset
           (zoo_dir "lfw" "train") (zoo_scratch "lfw") "train" empty_world);
    reflexivity.
Defined.

(** C2 as stated fails: coco-2017-segmentation has no existence check, and a
    second call on the disk the first one populated repeats all three
    transport calls. *)
Lemma coco_acquire_twice_retrieves_twice :
  fst (coco2017_train empty_world)
    = Ok (COCODetectionDataset, 2, Some ["person"; "dog"]) /\
  fs_exists (zoo_dir "coco-2017-segmentation" "train")
    (fs (after coco2017_train empty_world)) = true /\
  log (after coco2017_train (after coco2017_train empty_world)) =
  log (after coco2017_train empty_world) ++
    [EvDownloadCocoDatasetSplit (zoo_scratch "coco-2017-segmentation")
       (Some "train") "2017" true;
     EvMoveDir (join (zoo_scratch "coco-2017-segmentation") "train2017")
       (join (zoo_dir "coco-2017-segmentation" "train") "data");
     EvMoveFile
       (join (join (zoo_scratch "coco-2017-segmentation") "annotations")
          "instances_train2017.json")
       (join (zoo_dir "coco-2017-segmentation" "train") "labels.json")].
Proof. repeat split; reflexivity. Qed.

(** C3, as amended.  With [source_dir=None] the bundle is looked for in the
    scratch directory; when the requested split's directory does not exist
    and the bundle is not there, the call raises
    [ManualDownloadRequiredError], having changed nothing on disk. *)
Theorem bdd100k_missing_bundle_raises C copy_files dataset_dir scratch_dir s w :
  wrangle_bdd100k_download C = ref_wrangle_bdd100k_download ->
  fs_exists (split_dir dataset_dir s) (fs w) = false ->
  bdd100k_bundle_present scratch_dir (fs w) = false ->
  _download_and_prepare C (BDD100KDataset None copy_files)
    dataset_dir scratch_dir (Some s) w
  = (Raise ManualDownloadRequiredError,
     World (fs w)
       (log w ++ [EvWrangleBdd100kDownload scratch_dir (dirname dataset_dir)
                    copy_files])).
Proof.
  unfold split_dir. intros Hw Hmiss Habsent.
  cbn [_download_and_prepare].
  unfold bind, os_path_join, os_path_exists, ret, transport. cbn [fst snd].
  rewrite Hmiss, Hw. cbn [negb].
  unfold ref_wrangle_bdd100k_download. now rewrite Habsent.
Qed.

Lemma bdd100k_missing_bundle_raises_witness :
  _download_and_prepare demo (BDD100KDataset None true)
    (zoo_dir "bdd100k" "train") (zoo_scratch "bdd100k") (Some "train")
    empty_world
  = (Raise ManualDownloadRequiredError,
     World (Dir [])
       [EvWrangleBdd100kDownload (zoo_scratch "bdd100k") ["zoo"; "bdd100k"] true]).
Proof.
  apply (bdd100k_missing_bundle_raises demo true (zoo_dir "bdd100k" "train")
           (zoo_scratch "bdd100k") "train" empty_world); reflexivity.
Defined.

(** C3 as stated fails on a cache hit: the split directory is there, the
    bundle is nowhere, and the call succeeds. *)
Lemma bdd100k_cached_split_succeeds :
  bdd100k_bundle_present (zoo_scratch "bdd100k") (fs bdd_cached_world) = false /\
  _download_and_prepare demo (BDD100KDataset None true)
    (zoo_dir "bdd100k" "train") (zoo_scratch "bdd100k") (Some "train")
    bdd_cached_world
  = (Ok (BDDDataset, 1, None), bdd_cached_world).
Proof. split; reflexivity. Qed.

(** C4.  For every whole-bundle strategy, when the call for a first split
    leaves the second split's directory in place, the call for the second
    split makes no transport call and changes nothing; over the two calls
    at most one retrieval call is made. *)
Theorem whole_bundle_second_split_short_circuits C self
  dataset_dir1 dataset_dir2 scratch_dir s1 s2 w :
  whole_bundle self = true ->
  fs_exists (split_dir dataset_dir2 s2)
    (fs (after (_download_and_prepare C self dataset_dir1 scratch_dir (Some s1)) w))
  = true ->
  after (_download_and_prepare C self dataset_dir2 scratch_dir (Some s2))
    (after (_download_and_prepare C self dataset_dir1 scratch_dir (Some s1)) w)
  = after (_download_and_prepare C self dataset_dir1 scratch_dir (Some s1)) w
  /\
  exists evs,
    log (after (_download_and_prepare C self dataset_dir2 scratch_dir (Some s2))
           (after (_download_and_prepare C self dataset_dir1 scratch_dir (Some s1)) w))
    = log w ++ evs /\ length evs <= 1.
Proof.
  intros Hb Hhit.
  rewrite (whole_bundle_hit C self dataset_dir2) by assumption.
  split; [reflexivity|].
  rewrite whole_bundle_log by assumption.
  exists (if fs_exists (split_dir dataset_dir1 s1) (fs w) then []
          else bundle_retrieval self dataset_dir1 scratch_dir).
  split; [reflexivity|].
  destruct (fs_exists (split_dir dataset_dir1 s1) (fs w)); [simpl; lia|].
  destruct self; simpl; lia.
Qed.

Lemma whole_bundle_second_split_short_circuits_witness :
  after hmdb51_test (after hmdb51_train empty_world)
    = after hmdb51_train empty_world /\
  exists evs,
    log (after hmdb51_test (after hmdb51_train empty_world))
      = log empty_world ++ evs /\ length evs <= 1.
Proof.
  apply (whole_bundle_second_split_short_circuits demo (HMDB51Dataset 1%Z)
           (zoo_dir "hmdb51" "train") (zoo_dir "hmdb51" "test")
           (zoo_scratch "hmdb51") "train" "test" empty_world);
    reflexivity.
Defined.

(** *** Scanning the disk *)

Lemma walk_dir_nil : walk (Dir []) = [].
Proof. reflexivity. Qed.

Lemma walk_dir_cons s c rest :
  walk (Dir ((s, c) :: rest)) = map (cons s) (walk c) ++ walk (Dir rest).
Proof. reflexivity. Qed.

Lemma filter_map_cons (f : path -> bool) (s : string) (l : list path) :
  length (filter f (map (cons s) l)) = length (filter (fun q => f (s :: q)) l).
Proof.
  induction l as [|q l IH]; simpl; [reflexivity|].
  destruct (f (s :: q)); simpl; now rewrite IH.
Qed.

Lemma walk_dir_no_nil kids : length (filter is_nil (walk (Dir kids))) = 0.
Proof.
  induction kids as [|[s c] rest IH]; [reflexivity|].
  rewrite walk_dir_cons, filter_app, length_app, filter_map_cons.
  unfold path in *. rewrite IH.
  simpl. induction (walk c); simpl; auto.
Qed.

Lemma walk_count_here (c : node) :
  length (filter is_nil (walk c)) = if is_file ("", c) then 1 else 0.
Proof. destruct c as [d|kids]; [reflexivity|apply walk_dir_no_nil]. Qed.

(** The files directly inside a node are the files a scan lists one level
    down. *)
Lemma walk_count_files (c : node) :
  length (filter is_single (walk c)) = count_files c.
Proof.
  destruct c as [d|kids]; [reflexivity|]. simpl count_files.
  induction kids as [|[s k] rest IH]; [reflexivity|].
  rewrite walk_dir_cons, filter_app, length_app, filter_map_cons.
  unfold path in *. rewrite IH.
  change (fun q => is_single (s :: q)) with is_nil.
  rewrite walk_count_here. simpl. unfold is_file. simpl.
  destruct k; reflexivity.
Qed.

Lemma distinct_cons_not_in a rest :
  distinct (a :: rest) = true -> ~ In a rest /\ distinct rest = true.
Proof.
  simpl. intros H. apply andb_true_iff in H as [Hn Hd]. split; [|exact Hd].
  intros Hin. apply negb_true_iff in Hn.
  assert (existsb (String.eqb a) rest = true); [|congruence].
  apply existsb_exists. exists a. split; [exact Hin|apply String.eqb_refl].
Qed.

Ltac rew_path E :=
  let H := fresh in pose proof E as H; unfold path in H; rewrite H; clear H.

Lemma filter_none {A} (f : A -> bool) (l : list A) :
  (forall x, f x = false) -> filter f l = [].
Proof.
  intros H. induction l as [|x l IH]; simpl; [reflexivity|]. now rewrite H.
Qed.

Lemma is_sample_tree (ty : dataset_type) s q :
  ty = ImageClassificationDirectoryTree \/ ty = VideoClassificationDirectoryTree ->
  is_sample ty (s :: q) = is_single q.
Proof. intros [-> | ->]; destruct q as [|y [|z q']]; reflexivity. Qed.

Lemma is_sample_flat_data (ty : dataset_type) q :
  ty <> ImageClassificationDirectoryTree ->
  ty <> VideoClassificationDirectoryTree ->
  is_sample ty ("data" :: q) = is_single q.
Proof.
  intros H1 H2. destruct ty; try congruence;
    destruct q as [|y [|z q']]; reflexivity.
Qed.

Lemma is_sample_flat_other (ty : dataset_type) s q :
  ty <> ImageClassificationDirectoryTree ->
  ty <> VideoClassificationDirectoryTree ->
  (s =? "data")%string = false ->
  is_sample ty (s :: q) = false.
Proof.
  intros H1 H2 Hs. destruct ty; try congruence;
    destruct q as [|y [|z q']]; simpl; auto.
Qed.

Lemma scan_tree_entries (ty : dataset_type) kids :
  ty = ImageClassificationDirectoryTree \/ ty = VideoClassificationDirectoryTree ->
  length (filter (is_sample ty) (walk (Dir kids)))
  = list_sum (map (fun e => count_files (snd e)) kids).
Proof.
  intros Hty. induction kids as [|[s c] rest IH]; [reflexivity|].
  rewrite walk_dir_cons, filter_app, length_app, filter_map_cons.
  unfold path in *. rewrite IH.
  simpl. f_equal. rewrite <- walk_count_files. f_equal.
  apply filter_ext. intros q. now apply is_sample_tree.
Qed.

Lemma scan_flat_no_data (ty : dataset_type) kids :
  ty <> ImageClassificationDirectoryTree ->
  ty <> VideoClassificationDirectoryTree ->
  ~ In "data" (map fst kids) ->
  length (filter (is_sample ty) (walk (Dir kids))) = 0.
Proof.
  intros H1 H2. induction kids as [|[s c] rest IH]; intros Hn; [reflexivity|].
  simpl in Hn. rewrite walk_dir_cons, filter_app, length_app, filter_map_cons.
  unfold path in *. rewrite IH by tauto. rewrite Nat.add_0_r.
  assert (Hs : (s =? "data")%string = false) by (apply String.eqb_neq; tauto).
  rewrite filter_none; [reflexivity|].
  intros q. now apply is_sample_flat_other.
Qed.

Lemma scan_flat_entries (ty : dataset_type) kids :
  ty <> ImageClassificationDirectoryTree ->
  ty <> VideoClassificationDirectoryTree ->
  distinct (map fst kids) = true ->
  length (filter (is_sample ty) (walk (Dir kids)))
  = match assoc "data" kids with Some c => count_files c | None => 0 end.
Proof.
  intros H1 H2. induction kids as [|[s c] rest IH]; intros Hd; [reflexivity|].
  simpl map in Hd. apply distinct_cons_not_in in Hd as [Hs Hd].
  rewrite walk_dir_cons, filter_app, length_app, filter_map_cons. simpl assoc.
  unfold path in *.
  destruct (String.eqb_spec s "data") as [->|Hne].
  - rew_path (scan_flat_no_data ty rest H1 H2 Hs). rewrite Nat.add_0_r.
    rewrite <- walk_count_files. f_equal.
    apply filter_ext. intros q. now apply is_sample_flat_data.
  - rewrite (IH Hd). rewrite filter_none; [reflexivity|].
    intros q. apply is_sample_flat_other; auto. now apply String.eqb_neq.
Qed.

(** The reference importers count what a scan of the directory counts. *)
Lemma ref_get_num_samples_is_scan (i : importer) (d : path) (t : node) (n : nat) :
  ref_get_num_samples i d t = Ok n ->
  entries_distinct d t = true ->
  n = scan_layout (importer_layout i) d t.
Proof.
  unfold ref_get_num_samples, entries_distinct, scan_layout, scan_files.
  intros Hn Hd.
  destruct (fs_lookup d t) as [[c|kids]|] eqn:Hl; try discriminate.
  destruct i; injection Hn as <-; cbn [importer_layout];
    try (rewrite scan_tree_entries by tauto; reflexivity);
    (rewrite scan_flat_entries by (assumption || discriminate);
     rewrite (fs_lookup_join _ _ _ _ Hl);
     destruct (assoc "data" kids) as [[c|ks]|]; reflexivity).
Qed.

(** C5, as amended.  For every strategy but the two COCO ones, after a
    successful call the returned sample count equals the count a scan of
    the produced layout yields on the disk the call leaves behind: the
    files [<class>/<file>] of the split directory for the directory-tree
    layouts, the files [data/<file>] of the dataset or split directory for
    the others.  For the COCO strategies the returned count is the length of
    the image list parsed from the moved [labels.json]. *)
Theorem returned_count_is_directory_scan C self dataset_dir scratch_dir split
  w ty n cls w' :
  get_num_samples C = ref_get_num_samples ->
  _download_and_prepare C self dataset_dir scratch_dir split w
    = (Ok (ty, n, cls), w') ->
  match coco_year self with
  | None =>
      entries_distinct (sample_root self dataset_dir split) (fs w') = true ->
      n = scan_layout ty (sample_root self dataset_dir split) (fs w')
  | Some _ =>
      exists classes images,
        load_coco_detection_annotations C (join dataset_dir "labels.json") (fs w')
          = Ok (classes, images) /\
        n = length images
  end.
Proof.
  intros Hi H.
  destruct self; cbn [_download_and_prepare] in H; inv_run;
    repeat match goal with
    | E : (_, _, _) = (_, _, _) |- _ => injection E as <- <- <-
    | E : Some _ = Some _ |- _ => injection E as <-
    end;
    cbn [coco_year sample_root whole_bundle fs] in *;
    try (match goal with
         | E : load_coco_detection_annotations _ _ _ = Ok ?p |- _ =>
             exists (fst p), (snd p); split; [now destruct p | reflexivity]
         end);
    intros Hd;
    match goal with
    | E : get_num_samples C ?i ?d ?t = Ok _ |- _ =>
        rewrite Hi in E;
        exact (ref_get_num_samples_is_scan i d t _ E Hd)
    end.
Qed.

Lemma returned_count_is_directory_scan_witness :
  3 = scan_layout ImageClassificationDirectoryTree ["zoo"; "lfw"; "train"]
        (fs (after lfw_train empty_world)) /\
  2 = scan_layout FiftyOneDataset ["zoo"; "quickstart"]
        (fs (after quickstart_all empty_world)).
Proof.
  split.
  - exact (returned_count_is_directory_scan demo LabeledFacesInTheWildDataset
             (zoo_dir "lfw" "train") (zoo_scratch "lfw") (Some "train")
             empty_world ImageClassificationDirectoryTree 3
             (Some ["Al"; "Bob"; "Cy"]) (after lfw_train empty_world)
             eq_refl eq_refl eq_refl).
  - exact (returned_count_is_directory_scan demo QuickstartDataset
             ["zoo"; "quickstart"] (zoo_scratch "quickstart") None
             empty_world FiftyOneDataset 2 (Some [])
             (after quickstart_all empty_world)
             eq_refl eq_refl eq_refl).
Defined.

(** C5 as stated fails: the archive holds three images, its annotations
    list two; the call succeeds and returns 2 while the data directory
    holds 3 files. *)
Lemma coco_count_differs_from_scan :
  fst (coco2017_train empty_world)
    = Ok (COCODetectionDataset, 2, Some ["person"; "dog"]) /\
  scan_files (join (zoo_dir "coco-2017-segmentation" "train") "data")
    (fs (after coco2017_train empty_world)) = 3 /\
  scan_layout COCODetectionDataset (zoo_dir "coco-2017-segmentation" "train")
    (fs (after coco2017_train empty_world)) = 3.
Proof. repeat split; reflexivity. Qed.

(** C6, as amended.  The whole-bundle strategies (lfw, cityscapes, bdd100k,
    hmdb51, ucf101) check the split directory before any retrieval: when it
    exists the call makes no transport call and changes nothing, and when it
    does not exist lfw, bdd100k, hmdb51 and ucf101 make exactly their one
    retrieval call.  The other strategies (quickstart, quickstart-video,
    coco-2014-segmentation, coco-2017-segmentation) make no check: whatever
    the disk holds, the call opens with its download. *)
Theorem existence_check_by_strategy C self dataset_dir scratch_dir s w :
  if whole_bundle self
  then
    (fs_exists (split_dir dataset_dir s) (fs w) = true ->
     after (_download_and_prepare C self dataset_dir scratch_dir (Some s)) w = w)
    /\
    (fs_exists (split_dir dataset_dir s) (fs w) = false ->
     forall ev, bundle_retrieval self dataset_dir scratch_dir = [ev] ->
     log (after (_download_and_prepare C self dataset_dir scratch_dir (Some s)) w)
     = log w ++ [ev])
  else
    exists ev rest,
      opening_transport self scratch_dir (Some s) = Some ev /\
      log (after (_download_and_prepare C self dataset_dir scratch_dir (Some s)) w)
      = log w ++ ev :: rest.
Proof.
  destruct (whole_bundle self) eqn:Hb.
  - split.
    + intros Hhit. now apply whole_bundle_hit.
    + intros Hmiss ev Hev. rewrite whole_bundle_log by assumption.
      now rewrite Hmiss, Hev.
  - destruct (opening_transport self scratch_dir (Some s)) as [ev|] eqn:E;
      [|destruct self; discriminate].
    destruct (opening_transport_logged C self dataset_dir scratch_dir
                (Some s) w ev E) as [rest Hrest].
    now exists ev, rest.
Qed.

(** C6 as stated fails: coco-2014-segmentation is called on a disk that
    already holds the split's [data/] and [labels.json], and it downloads,
    moves and moves again. *)
Lemma coco_retrieves_over_existing_split :
  fs_exists (join (zoo_dir "coco-2014-segmentation" "validation") "data")
    (fs (after coco2014_validation empty_world)) = true /\
  fs_exists (join (zoo_dir "coco-2014-segmentation" "validation") "labels.json")
    (fs (after coco2014_validation empty_world)) = true /\
  log (after coco2014_validation (after coco2014_validation empty_world)) =
  log (after coco2014_validation empty_world) ++
    [EvDownloadCocoDatasetSplit (zoo_scratch "coco-2014-segmentation")
       (Some "validation") "2014" true;
     EvMoveDir (join (zoo_scratch "coco-2014-segmentation") "validation2014")
       (join (zoo_dir "coco-2014-segmentation" "validation") "data");
     EvMoveFile
       (join (join (zoo_scratch "coco-2014-segmentation") "annotations")
          "instances_validation2014.json")
       (join (zoo_dir "coco-2014-segmentation" "validation") "labels.json")].
Proof. repeat split; reflexivity. Qed.

(** C7.  Every key of [AVAILABLE_DATASETS] maps to a class whose instance,
    built with default arguments, has that key as its [name]. *)
Theorem registry_name_roundtrip key cls :
  registry_get key AVAILABLE_DATASETS = Some cls ->
  name (instantiate cls) = key.
Proof.
  unfold AVAILABLE_DATASETS. cbn [registry_get].
  repeat match goal with
  | |- context [String.eqb ?k key] =>
      destruct (String.eqb_spec k key) as [<-|_];
      [intros E; injection E as <-; reflexivity|]
  end.
  discriminate.
Qed.

Lemma registry_name_roundtrip_witness :
  registry_get "lfw" AVAILABLE_DATASETS = Some ClsLabeledFacesInTheWild /\
  name (instantiate ClsLabeledFacesInTheWild) = "lfw".
Proof.
  split; [reflexivity|].
  apply (registry_name_roundtrip "lfw" ClsLabeledFacesInTheWild). reflexivity.
Defined.

Remark registry_has_nine_names :
  map fst AVAILABLE_DATASETS =
  ["quickstart"; "quickstart-video"; "coco-2014-segmentation";
   "coco-2017-segmentation"; "lfw"; "cityscapes"; "bdd100k"; "hmdb51"; "ucf101"]
  /\ NoDup (map fst AVAILABLE_DATASETS).
Proof.
  split; [reflexivity|].
  simpl. repeat (constructor; [simpl; intuition discriminate|]). constructor.
Qed.

(** C8.  With both split directories on disk, the lfw strategy returns for
    ["train"] and for ["test"] the same class list: the classes of the train
    directory followed by those of the test directory, sorted ascending. *)
Theorem lfw_classes_do_not_depend_on_split C root scratch_dir w
  train test n_train n_test :
  fs_exists (join root "train") (fs w) = true ->
  fs_exists (join root "test") (fs w) = true ->
  get_classes C ImageClassificationDirectoryTreeImporter (join root "train") (fs w)
    = Ok train ->
  get_classes C ImageClassificationDirectoryTreeImporter (join root "test") (fs w)
    = Ok test ->
  get_num_samples C ImageClassificationDirectoryTreeImporter (join root "train") (fs w)
    = Ok n_train ->
  get_num_samples C ImageClassificationDirectoryTreeImporter (join root "test") (fs w)
    = Ok n_test ->
  _download_and_prepare C LabeledFacesInTheWildDataset (join root "train")
    scratch_dir (Some "train") w
  = (Ok (ImageClassificationDirectoryTree, n_train, Some (sorted (train ++ test))), w)
  /\
  _download_and_prepare C LabeledFacesInTheWildDataset (join root "test")
    scratch_dir (Some "test") w
  = (Ok (ImageClassificationDirectoryTree, n_test, Some (sorted (train ++ test))), w)
  /\
  Sorted (fun a b => String.leb a b = true) (sorted (train ++ test)) /\
  Permutation (train ++ test) (sorted (train ++ test)).
Proof.
  intros Htr Hte Hctr Hcte Hntr Hnte.
  repeat split.
  - cbn [_download_and_prepare].
    unfold importer_get_classes, importer_get_num_samples, bind, os_path_join,
      os_path_exists, inspect, ret.
    rewrite dirname_join. cbn [fst snd]. rewrite Htr. cbn [negb].
    now rewrite Hctr, Hcte, Hntr.
  - cbn [_download_and_prepare].
    unfold importer_get_classes, importer_get_num_samples, bind, os_path_join,
      os_path_exists, inspect, ret.
    rewrite dirname_join. cbn [fst snd]. rewrite Hte. cbn [negb].
    now rewrite Hctr, Hcte, Hnte.
  - apply StringSort.Sorted_sort.
  - apply StringSort.Permuted_sort.
Qed.

Lemma lfw_classes_do_not_depend_on_split_witness :
  _download_and_prepare demo LabeledFacesInTheWildDataset
    (join ["zoo"; "lfw"] "train") (zoo_scratch "lfw") (Some "train")
    (after lfw_train empty_world)
  = (Ok (ImageClassificationDirectoryTree, 3,
         Some (sorted (["Bob"; "Al"] ++ ["Cy"]))),
     after lfw_train empty_world)
  /\
  _download_and_prepare demo LabeledFacesInTheWildDataset
    (join ["zoo"; "lfw"] "test") (zoo_scratch "lfw") (Some "test")
    (after lfw_train empty_world)
  = (Ok (ImageClassificationDirectoryTree, 1,
         Some (sorted (["Bob"; "Al"] ++ ["Cy"]))),
     after lfw_train empty_world)
  /\
  Sorted (fun a b => String.leb a b = true) (sorted (["Bob"; "Al"] ++ ["Cy"])) /\
  Permutation (["Bob"; "Al"] ++ ["Cy"]) (sorted (["Bob"; "Al"] ++ ["Cy"])).
Proof.
  apply (lfw_classes_do_not_depend_on_split demo ["zoo"; "lfw"]
           (zoo_scratch "lfw") (after lfw_train empty_world));
    reflexivity.
Defined.

(** C9, as amended.  When [dst] is an existing directory that is neither
    [src] nor inside it and holds no entry named like a child of [src]
    (whose entries have distinct names, as in any directory),
    [_move_dir src dst] returns, every child of [src] is then found under
    [dst] with its name and contents, and [src] is still there, as an empty
    directory. *)
Theorem move_dir_moves_children_into_directory src dst w kids dkids :
  fs_lookup src (fs w) = Some (Dir kids) ->
  fs_lookup dst (fs w) = Some (Dir dkids) ->
  NoDup (map fst kids) ->
  is_prefix src dst = false ->
  (forall n, In n (map fst kids) -> assoc n dkids = None) ->
  exists w',
    _move_dir src dst w = (Ok tt, w') /\
    fs_lookup src (fs w') = Some (Dir []) /\
    forall n c, In (n, c) kids -> fs_lookup (join dst n) (fs w') = Some c.
Proof.
  intros Hsrc Hdst Hnd Hpre Hfresh.
  destruct w as [t lg]. cbn [fs] in *.
  destruct (move_loop src dst Hpre kids t lg Hnd Hsrc) as
    (t' & lg' & Hrun & Hsrc' & _ & Hmoved & _).
  - unfold fs_isdir. now rewrite Hdst.
  - intros n Hn. rewrite (fs_lookup_join _ _ _ _ Hdst). now apply Hfresh.
  - exists (World t' lg'). repeat split; auto.
    unfold _move_dir, os_listdir, bind, inspect. cbn [fs]. rewrite Hsrc.
    exact Hrun.
Qed.

Lemma move_dir_moves_children_into_directory_witness :
  exists w',
    _move_dir ["zoo"; "quickstart"; "tmp-download"; "quickstart"]
      ["zoo"; "quickstart"] unpacked_world = (Ok tt, w') /\
    fs_lookup ["zoo"; "quickstart"; "tmp-download"; "quickstart"] (fs w')
      = Some (Dir []) /\
    forall n c,
      In (n, c) [("data", Dir [("a.jpg", img "a")]); ("labels.json", img "[]")] ->
      fs_lookup (join ["zoo"; "quickstart"] n) (fs w') = Some c.
Proof.
  apply (move_dir_moves_children_into_directory
           ["zoo"; "quickstart"; "tmp-download"; "quickstart"]
           ["zoo"; "quickstart"] unpacked_world
           [("data", Dir [("a.jpg", img "a")]); ("labels.json", img "[]")]
           [("info.json", img "{}");
            ("tmp-download",
             Dir [("quickstart",
                   Dir [("data", Dir [("a.jpg", img "a")]);
                        ("labels.json", img "[]")])])]).
  - reflexivity.
  - reflexivity.
  - simpl. repeat (constructor; [simpl; intuition discriminate|]). constructor.
  - reflexivity.
  - simpl. intros n [<-|[<-|[]]]; reflexivity.
Defined.

(** C9 as stated fails when [dst] does not exist: the first child is
    renamed to [dst] itself and the second one replaces it.  The call
    returns, [src] is empty, and [dst] is a regular file that holds neither
    child as an entry. *)
Lemma move_dir_to_missing_destination :
  fs_lookup ["s"; "a"] (fs two_files_world) = Some (img "a") /\
  fs_lookup ["s"; "b"] (fs two_files_world) = Some (img "b") /\
  fst (_move_dir ["s"] ["d"] two_files_world) = Ok tt /\
  fs_lookup ["s"] (fs (after (_move_dir ["s"] ["d"]) two_files_world))
    = Some (Dir []) /\
  fs_lookup ["d"] (fs (after (_move_dir ["s"] ["d"]) two_files_world))
    = Some (img "b") /\
  fs_lookup ["d"; "a"] (fs (after (_move_dir ["s"] ["d"]) two_files_world))
    = None /\
  fs_lookup ["d"; "b"] (fs (after (_move_dir ["s"] ["d"]) two_files_world))
    = None.
Proof. repeat split; reflexivity. Qed.

(** ** The ingest script *)

Lemma make_samples_spec data_dir random_random partition keys n :
  map filepath (fst (make_samples data_dir random_random partition keys n))
    = map (posix_join data_dir) keys /\
  Forall (tagged partition)
    (fst (make_samples data_dir random_random partition keys n)) /\
  snd (make_samples data_dir random_random partition keys n) = n + length keys.
Proof.
  revert n. induction keys as [|k rest IH]; intros n; simpl.
  - repeat split; [constructor | lia].
  - specialize (IH (S n)).
    destruct (make_samples data_dir random_random partition rest (S n))
      as [more n'].
    simpl in *. destruct IH as (Hpaths & Htags & Hn). repeat split.
    + now rewrite Hpaths.
    + constructor; [|assumption]. unfold tagged. simpl.
      destruct (Qle_bool (random_random n) threshold); simpl; auto.
    + lia.
Qed.

(** C10.  When the four label files parse, the script hands over exactly
    two batches, for ["train"] and then for ["test"]; each batch holds one
    sample per entry of that partition's fine-labels mapping, in order, and
    the tags of every sample are the partition name, alone or followed by
    ["rand"]. *)
Theorem ingest_adds_one_sample_per_entry data_dir read_json random_random
  fine_train coarse_train fine_test coarse_test :
  read_json (fine_labels_path data_dir "train") = Ok fine_train ->
  read_json (coarse_labels_path data_dir "train") = Ok coarse_train ->
  read_json (fine_labels_path data_dir "test") = Ok fine_test ->
  read_json (coarse_labels_path data_dir "test") = Ok coarse_test ->
  exists train_samples test_samples n,
    ingest data_dir read_json random_random
      = (Ok tt, IngestState n [train_samples; test_samples]) /\
    map filepath train_samples
      = map (fun e => posix_join data_dir (fst e)) fine_train /\
    map filepath test_samples
      = map (fun e => posix_join data_dir (fst e)) fine_test /\
    Forall (tagged "train") train_samples /\
    Forall (tagged "test") test_samples.
Proof.
  intros Hft Hct Hfe Hce.
  unfold ingest, partitions. cbn [ingest_loop]. unfold ingest_partition.
  rewrite Hft, Hct. cbn [draws added].
  pose proof (make_samples_spec data_dir random_random "train"
                (map fst fine_train) 0) as (Hp1 & Ht1 & Hn1).
  destruct (make_samples data_dir random_random "train" (map fst fine_train) 0)
    as [train_samples n1].
  rewrite Hfe, Hce. cbn [draws added app].
  pose proof (make_samples_spec data_dir random_random "test"
                (map fst fine_test) n1) as (Hp2 & Ht2 & Hn2).
  destruct (make_samples data_dir random_random "test" (map fst fine_test) n1)
    as [test_samples n2].
  cbn [fst snd] in *.
  exists train_samples, test_samples, n2.
  rewrite map_map in Hp1, Hp2. repeat split; assumption.
Qed.

Lemma ingest_adds_one_sample_per_entry_witness :
  exists train_samples test_samples n,
    ingest "/data/cifar100" demo_read_json demo_random
      = (Ok tt, IngestState n [train_samples; test_samples]) /\
    map filepath train_samples
      = map (fun e => posix_join "/data/cifar100" (fst e))
          [("train/0.png", JInt 19); ("train/1.png", JInt 29)] /\
    map filepath test_samples
      = map (fun e => posix_join "/data/cifar100" (fst e))
          [("test/0.png", JInt 49)] /\
    Forall (tagged "train") train_samples /\
    Forall (tagged "test") test_samples.
Proof.
  apply (ingest_adds_one_sample_per_entry "/data/cifar100" demo_read_json
           demo_random
           [("train/0.png", JInt 19); ("train/1.png", JInt 29)]
           [("train/0.png", JInt 11); ("train/1.png", JInt 15)]
           [("test/0.png", JInt 49)]
           [("test/0.png", JInt 10)]);
    reflexivity.
Defined.

Example ingest_demo_run :
  ingest "/data/cifar100" demo_read_json demo_random
  = (Ok tt,
     IngestState 3
       [[ {| filepath := "/data/cifar100/train/0.png"; tags := ["train"] |};
          {| filepath := "/data/cifar100/train/1.png"; tags := ["train"; "rand"] |} ];
        [ {| filepath := "/data/cifar100/test/0.png"; tags := ["test"] |} ]]).
Proof. reflexivity. Qed.

(** * Further properties of the code *)

(** ** [_move_dir] at its edges *)

Lemma for_each_app {A} (l1 l2 : list A) (body : A -> M unit) w :
  for_each (l1 ++ l2) body w =
  match for_each l1 body w with
  | (Ok _, w1) => for_each l2 body w1
  | (Raise e, w1) => (Raise e, w1)
  end.
Proof.
  revert w. induction l1 as [|a l1 IH]; intros w; simpl; [reflexivity|].
  unfold bind. destruct (body a w) as [[u|e] w1]; [apply IH|reflexivity].
Qed.

Lemma for_each_transport_log {A} (ev : A -> event) (act : A -> fs_action unit)
  (l : list A) w w' :
  for_each l (fun a => transport (ev a) (act a)) w = (Ok tt, w') ->
  log w' = log w ++ map ev l.
Proof.
  revert w. induction l as [|a l IH]; intros w H; simpl in *.
  - unfold ret in H. injection H as <-. now rewrite app_nil_r.
  - apply bind_ok in H as (u & w1 & H1 & H2).
    apply transport_ok in H1 as (t1 & _ & ->).
    apply IH in H2. rewrite H2. simpl. now rewrite <- app_assoc.
Qed.

Lemma fs_through_file_at p t d :
  fs_lookup p t = Some (File d) -> fs_through_file p t = true.
Proof.
  revert t. induction p as [|s p IH]; intros t H; simpl in *.
  - now injection H as ->.
  - destruct t as [c|kids]; [reflexivity|].
    destruct (assoc s kids); [now apply IH|discriminate].
Qed.

(** X1.  When [src] is not a directory, [_move_dir] raises before any move
    and changes nothing: [NotADirectoryError] when [src] is a regular file
    or leads through one, [FileNotFoundError] when a segment of [src] is
    missing. *)
Theorem move_dir_source_not_a_directory src dst w :
  fs_isdir src (fs w) = false ->
  _move_dir src dst w =
  (Raise (if fs_through_file src (fs w) then NotADirectoryError
          else FileNotFoundError), w).
Proof.
  unfold fs_isdir, _move_dir, os_listdir, bind, inspect.
  destruct (fs_lookup src (fs w)) as [[d|kids]|] eqn:E; intros H.
  - now rewrite (fs_through_file_at _ _ _ E).
  - discriminate.
  - now destruct (fs_through_file src (fs w)).
Qed.

Lemma move_dir_source_not_a_directory_witness :
  _move_dir ["nowhere"] ["d"] two_files_world
  = (Raise FileNotFoundError, two_files_world) /\
  _move_dir ["s"; "a"] ["d"] two_files_world
  = (Raise NotADirectoryError, two_files_world) /\
  _move_dir ["s"; "a"; "below"] ["d"] two_files_world
  = (Raise NotADirectoryError, two_files_world).
Proof.
  split; [|split].
  - apply (move_dir_source_not_a_directory ["nowhere"] ["d"] two_files_world).
    reflexivity.
  - apply (move_dir_source_not_a_directory ["s"; "a"] ["d"] two_files_world).
    reflexivity.
  - apply (move_dir_source_not_a_directory ["s"; "a"; "below"] ["d"]
             two_files_world).
    reflexivity.
Defined.

(** X2.  On an empty source directory [_move_dir] returns at once: no move
    is made and the world is unchanged, whether or not [dst] exists. *)
Theorem move_dir_empty_source src dst w :
  fs_lookup src (fs w) = Some (Dir []) ->
  _move_dir src dst w = (Ok tt, w).
Proof.
  intros H. unfold _move_dir, os_listdir, bind, inspect. now rewrite H.
Qed.

Lemma move_dir_empty_source_witness :
  _move_dir ["zoo"; "cityscapes"; "test"; "data"] ["missing"] cityscapes_world
  = (Ok tt, cityscapes_world).
Proof.
  apply (move_dir_empty_source ["zoo"; "cityscapes"; "test"; "data"]
           ["missing"] cityscapes_world).
  reflexivity.
Defined.

Lemma move_dir_log_on_success src dst w w' :
  _move_dir src dst w = (Ok tt, w') ->
  exists kids,
    fs_lookup src (fs w) = Some (Dir kids) /\
    log w' = log w ++ map (fun e => EvShutilMove (join src (fst e)) dst) kids.
Proof.
  unfold _move_dir. intros H.
  apply bind_ok in H as (names & w1 & Hls & Hloop).
  unfold os_listdir in Hls. apply inspect_ok in Hls as [Hls ->].
  destruct (fs_lookup src (fs w)) as [[d|kids]|]; try discriminate;
    [|destruct (fs_through_file src (fs w)); discriminate].
  injection Hls as <-. exists kids. split; [reflexivity|].
  apply for_each_transport_log in Hloop. now rewrite map_map in Hloop.
Qed.

(** X3.  A successful [_move_dir] has called [shutil.move] exactly once per
    entry [os.listdir] reported for [src], in listing order, each time with
    destination [dst]. *)
Theorem move_dir_one_move_per_entry src dst w w' :
  _move_dir src dst w = (Ok tt, w') ->
  exists kids,
    fs_lookup src (fs w) = Some (Dir kids) /\
    log w' = log w ++ map (fun e => EvShutilMove (join src (fst e)) dst) kids.
Proof. apply move_dir_log_on_success. Qed.

Lemma move_dir_one_move_per_entry_witness :
  exists kids,
    fs_lookup ["s"] (fs two_files_world) = Some (Dir kids) /\
    log (after (_move_dir ["s"] ["d"]) two_files_world)
    = log two_files_world ++
      map (fun e => EvShutilMove (join ["s"] (fst e)) ["d"]) kids.
Proof.
  apply (move_dir_one_move_per_entry ["s"] ["d"] two_files_world).
  reflexivity.
Defined.

(** X4.  Moving a non-empty directory onto itself fails at the first entry:
    [shutil.move] finds the entry's name taken in the destination and raises,
    and nothing on disk changes. *)
Theorem move_dir_onto_itself d w n c kids :
  fs_lookup d (fs w) = Some (Dir ((n, c) :: kids)) ->
  _move_dir d d w =
  (Raise ShutilError, World (fs w) (log w ++ [EvShutilMove (join d n) d])).
Proof.
  intros H. unfold _move_dir, os_listdir, bind, inspect. rewrite H.
  cbn [map fst for_each]. unfold bind, transport, shutil_move.
  assert (Hdir : fs_isdir d (fs w) = true) by (unfold fs_isdir; now rewrite H).
  assert (Hne : path_eqb (join d n) d = false).
  { destruct (path_eqb (join d n) d) eqn:E; [|reflexivity].
    apply path_eqb_eq in E. unfold join in E.
    apply (f_equal (@length string)) in E. rewrite length_app in E.
    simpl in E. lia. }
  rewrite Hdir, Hne. cbn [andb]. rewrite basename_join.
  unfold fs_exists. rewrite (fs_lookup_join _ _ _ _ H). simpl.
  now rewrite String.eqb_refl.
Qed.

Lemma move_dir_onto_itself_witness :
  _move_dir ["s"] ["s"] two_files_world =
  (Raise ShutilError,
   World (fs two_files_world) [EvShutilMove ["s"; "a"] ["s"]]).
Proof.
  apply (move_dir_onto_itself ["s"] two_files_world "a" (img "a")
           [("b", img "b")]).
  reflexivity.
Defined.

(** ** [_move_dir] part of the way *)

Lemma shutil_move_taken_name (S D : path) (n : string) (t : node) :
  fs_isdir D t = true ->
  is_prefix S D = false ->
  fs_exists (join D n) t = true ->
  shutil_move (join S n) D t = (Raise ShutilError, t).
Proof.
  intros Hdir Hpre Htaken. unfold shutil_move. rewrite Hdir.
  assert (E1 : path_eqb (join S n) D = false).
  { destruct (path_eqb (join S n) D) eqn:E; [|reflexivity].
    apply path_eqb_eq in E. subst D. now rewrite is_prefix_join in Hpre. }
  rewrite E1. cbn [andb]. now rewrite basename_join, Htaken.
Qed.

(** The loop of [_move_dir] over the first entries of [src], the others
    still waiting. *)
Lemma move_loop_prefix (S D : path) :
  is_prefix S D = false ->
  forall (pre post : list (string * node)) (t : node) (lg : list event),
    NoDup (map fst (pre ++ post)) ->
    fs_lookup S t = Some (Dir (pre ++ post)) ->
    fs_isdir D t = true ->
    (forall n, In n (map fst pre) -> fs_lookup (join D n) t = None) ->
    exists t',
      for_each (map fst pre) (move_body S D) (World t lg)
      = (Ok tt, World t' (lg ++ map (fun e => EvShutilMove (join S (fst e)) D) pre)) /\
      fs_lookup S t' = Some (Dir post) /\
      fs_isdir D t' = true /\
      (forall n c, In (n, c) pre -> fs_lookup (join D n) t' = Some c) /\
      (forall m, ~ In m (map fst pre) -> is_prefix (join D m) S = false ->
                 fs_lookup (join D m) t' = fs_lookup (join D m) t).
Proof.
  intros Hpre pre. induction pre as [|[n c] rest IH];
    intros post t lg Hnd HS HD Hfree.
  - exists t. simpl. rewrite app_nil_r. repeat split; auto. intros n c [].
  - simpl in Hnd, HS. inversion Hnd as [|? ? Hn Hnd']; subst.
    assert (Hoff : forall m, fs_lookup (join D m) t = None ->
                             is_prefix (join D m) S = false).
    { intros m Hm. destruct (is_prefix (join D m) S) eqn:E; [|reflexivity].
      rewrite (fs_lookup_prefix_none _ _ _ E Hm) in HS. discriminate. }
    assert (Hcross : forall m, is_prefix (join S n) (join D m) = false).
    { intros m. destruct (is_prefix (join S n) (join D m)) eqn:E; [|reflexivity].
      apply is_prefix_join_r in E. congruence. }
    assert (Hn_off : is_prefix (join D n) S = false).
    { apply Hoff, Hfree. now left. }
    assert (Hsrc : fs_lookup (join S n) t = Some c).
    { rewrite (fs_lookup_join _ _ _ _ HS). simpl. now rewrite String.eqb_refl. }
    pose proof (shutil_move_into_dir S D n c t Hsrc HD
                  (Hfree n (or_introl eq_refl)) Hpre) as Hstep.
    set (t0 := fs_alter (del_kid n) S t) in *.
    set (t1 := fs_alter (set_kid n c) D t0) in *.
    assert (HD0 : fs_isdir D t0 = true).
    { unfold t0. now rewrite fs_isdir_alter. }
    destruct (fs_isdir_inv _ _ HD0) as [dk0 Hdk0].
    assert (HS1 : fs_lookup S t1 = Some (Dir (rest ++ post))).
    { unfold t1.
      rewrite (fs_lookup_alter_frame _ n) by
        (auto using set_kid_touches_only).
      unfold t0. rewrite (fs_lookup_alter_here _ _ _ _ HS).
      now rewrite del_kid_head. }
    assert (HD1 : fs_isdir D t1 = true).
    { unfold t1, fs_isdir. now rewrite (fs_lookup_alter_here _ _ _ _ Hdk0). }
    assert (Hat1 : forall m, fs_lookup (join D m) t1 = assoc m (set_kid n c dk0)).
    { intros m. unfold t1, join.
      rewrite (fs_lookup_alter_under _ _ _ _ _ Hdk0). simpl.
      now destruct (assoc m (set_kid n c dk0)). }
    assert (Hkeep : forall m, m <> n -> is_prefix (join D m) S = false ->
                              fs_lookup (join D m) t1 = fs_lookup (join D m) t).
    { intros m Hm Hoffm. rewrite Hat1, assoc_set_kid_other by assumption.
      rewrite <- (fs_lookup_join _ _ _ _ Hdk0). unfold t0.
      apply (fs_lookup_alter_frame _ n); auto using del_kid_touches_only. }
    destruct (IH post t1 (lg ++ [EvShutilMove (join S n) D]) Hnd' HS1 HD1)
      as (t' & Hrun & HS' & HD' & Hmoved & Hframe).
    { intros m Hm. assert (m <> n).
      { intros ->. apply Hn. rewrite map_app, in_app_iff. now left. }
      assert (Hm0 : fs_lookup (join D m) t = None) by (apply Hfree; now right).
      rewrite Hkeep; auto. }
    exists t'. split; [|split; [|split; [|split]]]; auto.
    + simpl. unfold bind, move_body at 1, transport. simpl.
      rewrite Hstep, Hrun. now rewrite <- app_assoc.
    + intros m d [Heq|Hin].
      * injection Heq as -> ->. rewrite Hframe; auto.
        -- rewrite Hat1. apply assoc_set_kid_same.
        -- intros Hin. apply Hn. rewrite map_app, in_app_iff. now left.
      * now apply Hmoved.
    + intros m Hm Hoffm. simpl in Hm.
      rewrite Hframe by tauto. apply Hkeep; [|assumption].
      intros ->. tauto.
Qed.

(** X5.  [_move_dir] never overwrites an entry of an existing destination
    directory, and it is not atomic.  When the listing of [src] reaches a name
    that [dst] already holds, the call raises [shutil.Error]; the entries
    listed before it have been moved into [dst], the clashing entry and
    those after it are still in [src], and the entry of [dst] is as it
    was (unless [src] itself lies inside it). *)
Theorem move_dir_stops_at_taken_name src dst w pre n c post dkids d :
  fs_lookup src (fs w) = Some (Dir (pre ++ (n, c) :: post)) ->
  fs_lookup dst (fs w) = Some (Dir dkids) ->
  NoDup (map fst (pre ++ (n, c) :: post)) ->
  is_prefix src dst = false ->
  (forall m, In m (map fst pre) -> assoc m dkids = None) ->
  assoc n dkids = Some d ->
  exists w',
    _move_dir src dst w = (Raise ShutilError, w') /\
    fs_lookup src (fs w') = Some (Dir ((n, c) :: post)) /\
    (forall m e, In (m, e) pre -> fs_lookup (join dst m) (fs w') = Some e) /\
    (is_prefix (join dst n) src = false ->
     fs_lookup (join dst n) (fs w') = Some d).
Proof.
  intros Hsrc Hdst Hnd Hpre Hfresh Htaken.
  destruct w as [t lg]. cbn [fs] in *.
  destruct (move_loop_prefix src dst Hpre pre ((n, c) :: post) t lg Hnd Hsrc)
    as (t' & Hrun & Hsrc' & Hdir' & Hmoved & Hframe).
  { unfold fs_isdir. now rewrite Hdst. }
  { intros m Hm. rewrite (fs_lookup_join _ _ _ _ Hdst). now apply Hfresh. }
  assert (Hn : ~ In n (map fst pre)).
  { intros Hin. apply Hfresh in Hin. congruence. }
  assert (Hthere : fs_exists (join dst n) t' = true).
  { unfold fs_exists. destruct (is_prefix (join dst n) src) eqn:E.
    - destruct (fs_lookup (join dst n) t') eqn:L; [reflexivity|].
      rewrite (fs_lookup_prefix_none _ _ _ E L) in Hsrc'. discriminate.
    - rewrite (Hframe n Hn E), (fs_lookup_join _ _ _ _ Hdst), Htaken.
      reflexivity. }
  eexists. split; [|split; [|split]].
  - unfold _move_dir, os_listdir, bind, inspect. cbn [fs]. rewrite Hsrc.
    rewrite map_app, for_each_app.
    fold (move_body src dst). rewrite Hrun.
    cbn [map fst for_each]. unfold bind, move_body at 1, transport. cbn [fs log].
    rewrite (shutil_move_taken_name src dst n t' Hdir' Hpre Hthere).
    reflexivity.
  - exact Hsrc'.
  - exact Hmoved.
  - intros E. cbn [fs].
    rewrite (Hframe n Hn E), (fs_lookup_join _ _ _ _ Hdst). exact Htaken.
Qed.

Lemma move_dir_stops_at_taken_name_witness :
  exists w',
    _move_dir ["s"] ["d"] taken_name_world = (Raise ShutilError, w') /\
    fs_lookup ["s"] (fs w') = Some (Dir [("b", img "b"); ("c", img "c")]) /\
    (forall m e, In (m, e) [("a", img "a")] ->
                 fs_lookup (join ["d"] m) (fs w') = Some e) /\
    (is_prefix (join ["d"] "b") ["s"] = false ->
     fs_lookup (join ["d"] "b") (fs w') = Some (img "old")).
Proof.
  apply (move_dir_stops_at_taken_name ["s"] ["d"] taken_name_world
           [("a", img "a")] "b" (img "b") [("c", img "c")]
           [("b", img "old")] (img "old")).
  - reflexivity.
  - reflexivity.
  - simpl. repeat (constructor; [simpl; intuition discriminate|]). constructor.
  - reflexivity.
  - simpl. intros m [<-|[]]. reflexivity.
  - reflexivity.
Defined.

(** X6.  Under the conditions in which [_move_dir] moves every child (an
    existing destination directory outside [src], no name taken), the
    entries [dst] held before the call are still there afterwards with
    their contents, except the one [src] lies inside of, if any. *)
Theorem move_dir_keeps_destination_entries src dst w kids dkids m d :
  fs_lookup src (fs w) = Some (Dir kids) ->
  fs_lookup dst (fs w) = Some (Dir dkids) ->
  NoDup (map fst kids) ->
  is_prefix src dst = false ->
  (forall n, In n (map fst kids) -> assoc n dkids = None) ->
  assoc m dkids = Some d ->
  is_prefix (join dst m) src = false ->
  fst (_move_dir src dst w) = Ok tt /\
  fs_lookup (join dst m) (fs (after (_move_dir src dst) w)) = Some d.
Proof.
  intros Hsrc Hdst Hnd Hpre Hfresh Hm Hoff.
  destruct w as [t lg]. cbn [fs] in *.
  destruct (move_loop src dst Hpre kids t lg Hnd Hsrc) as
    (t' & lg' & Hrun & _ & _ & _ & Hframe).
  - unfold fs_isdir. now rewrite Hdst.
  - intros n Hn. rewrite (fs_lookup_join _ _ _ _ Hdst). now apply Hfresh.
  - assert (Hcall : _move_dir src dst (World t lg) = (Ok tt, World t' lg')).
    { unfold _move_dir, os_listdir, bind, inspect. cbn [fs]. rewrite Hsrc.
      exact Hrun. }
    unfold after. rewrite Hcall. cbn [fst snd fs]. split; [reflexivity|].
    rewrite Hframe; auto.
    + now rewrite (fs_lookup_join _ _ _ _ Hdst).
    + intros Hin. apply Hfresh in Hin. congruence.
Qed.

Lemma move_dir_keeps_destination_entries_witness :
  fst (_move_dir ["zoo"; "quickstart"; "tmp-download"; "quickstart"]
         ["zoo"; "quickstart"] unpacked_world) = Ok tt /\
  fs_lookup (join ["zoo"; "quickstart"] "info.json")
    (fs (after (_move_dir ["zoo"; "quickstart"; "tmp-download"; "quickstart"]
                  ["zoo"; "quickstart"]) unpacked_world))
  = Some (img "{}").
Proof.
  apply (move_dir_keeps_destination_entries
           ["zoo"; "quickstart"; "tmp-download"; "quickstart"]
           ["zoo"; "quickstart"] unpacked_world
           [("data", Dir [("a.jpg", img "a")]); ("labels.json", img "[]")]
           [("info.json", img "{}");
            ("tmp-download",
             Dir [("quickstart",
                   Dir [("data", Dir [("a.jpg", img "a")]);
                        ("labels.json", img "[]")])])]).
  - reflexivity.
  - reflexivity.
  - simpl. repeat (constructor; [simpl; intuition discriminate|]). constructor.
  - reflexivity.
  - simpl. intros n [<-|[<-|[]]]; reflexivity.
  - reflexivity.
  - reflexivity.
Defined.

(** ** The strategies at their edges *)

Ltac unfold_run :=
  unfold importer_get_classes, importer_get_num_samples, bind, os_path_join,
    os_path_exists, inspect, ret, raise, transport.

(** X7.  A whole-bundle strategy called without a split fails on
    [os.path.join(dataset_dir, split)] before anything else: it raises
    [TypeError], makes no transport call and leaves the disk alone. *)
Theorem whole_bundle_without_split C self dataset_dir scratch_dir w :
  whole_bundle self = true ->
  _download_and_prepare C self dataset_dir scratch_dir None w
  = (Raise TypeError, w).
Proof.
  intros Hb. destruct self; try discriminate Hb; reflexivity.
Qed.

Lemma whole_bundle_without_split_witness :
  _download_and_prepare demo (UCF101Dataset 1%Z) ["zoo"; "ucf101"]
    (zoo_scratch "ucf101") None empty_world
  = (Raise TypeError, empty_world).
Proof.
  apply (whole_bundle_without_split demo (UCF101Dataset 1%Z)).
  reflexivity.
Defined.

(** X8.  When the retrieval helper of a whole-bundle strategy raises on a
    miss, the strategy raises the same exception: it is not caught, the
    metadata importers are not consulted, and the disk is left as the helper
    left it. *)
Theorem whole_bundle_retrieval_failure_surfaces C self dataset_dir scratch_dir
  s w ev e t1 :
  bundle_retrieval self dataset_dir scratch_dir = [ev] ->
  fs_exists (split_dir dataset_dir s) (fs w) = false ->
  bundle_action C self dataset_dir scratch_dir (fs w) = (Raise e, t1) ->
  _download_and_prepare C self dataset_dir scratch_dir (Some s) w
  = (Raise e, World t1 (log w ++ [ev])).
Proof.
  unfold split_dir. intros Hev Hmiss Hact.
  destruct self; try discriminate Hev; injection Hev as <-;
    cbn [_download_and_prepare bundle_action] in *; unfold_run;
    cbn [fst snd]; rewrite Hmiss; cbn [negb]; now rewrite Hact.
Qed.

Lemma whole_bundle_retrieval_failure_surfaces_witness :
  _download_and_prepare demo (BDD100KDataset None false)
    (zoo_dir "bdd100k" "test") (zoo_scratch "bdd100k") (Some "test") empty_world
  = (Raise ManualDownloadRequiredError,
     World (Dir [])
       (log empty_world ++
        [EvWrangleBdd100kDownload (zoo_scratch "bdd100k") ["zoo"; "bdd100k"]
           false])).
Proof.
  apply (whole_bundle_retrieval_failure_surfaces demo (BDD100KDataset None false)
           (zoo_dir "bdd100k" "test") (zoo_scratch "bdd100k") "test"
           empty_world);
    reflexivity.
Defined.

(** X9.  When the download a quickstart or COCO strategy opens with raises,
    the strategy raises the same exception after that single transport call:
    nothing is extracted or moved and no metadata is read. *)
Theorem opening_download_failure_surfaces C self dataset_dir scratch_dir
  split w ev e t1 :
  opening_transport self scratch_dir split = Some ev ->
  opening_action C self scratch_dir split (fs w) = (Raise e, t1) ->
  _download_and_prepare C self dataset_dir scratch_dir split w
  = (Raise e, World t1 (log w ++ [ev])).
Proof.
  intros Hev Hact.
  destruct self; try discriminate Hev; injection Hev as <-;
    cbn [_download_and_prepare opening_action coco_year] in *; unfold_run;
    cbn [fst snd].
  - now rewrite Hact.
  - now rewrite Hact.
  - destruct (download_coco_dataset_split C scratch_dir split "2014" true (fs w))
      as [[p|e'] t']; [discriminate|]. now injection Hact as -> ->.
  - destruct (download_coco_dataset_split C scratch_dir split "2017" true (fs w))
      as [[p|e'] t']; [discriminate|]. now injection Hact as -> ->.
Qed.

Lemma opening_download_failure_surfaces_witness :
  _download_and_prepare demo VideoQuickstartDataset ["zoo"; "quickstart-video"]
    (zoo_scratch "quickstart-video") None empty_world
  = (Raise TransportError,
     World (Dir [])
       (log empty_world ++
        [EvDownloadGoogleDriveFile "1O-WMjtiBBMXGEHnnus6y2nSlJu8pY5vo"
           (join (zoo_scratch "quickstart-video") "dataset.zip")])).
Proof.
  apply (opening_download_failure_surfaces demo VideoQuickstartDataset
           ["zoo"; "quickstart-video"] (zoo_scratch "quickstart-video") None
           empty_world);
    reflexivity.
Defined.

(** X10.  A successful call of a COCO strategy has made exactly three
    transport calls, in this order: the split download, [move_dir] of the
    images directory the download returned to [<dataset_dir>/data], and
    [move_file] of the annotations path it returned to
    [<dataset_dir>/labels.json]. *)
Theorem coco_transport_sequence C self dataset_dir scratch_dir split w year r w' :
  coco_year self = Some year ->
  _download_and_prepare C self dataset_dir scratch_dir split w = (Ok r, w') ->
  exists images_dir anno_path t1,
    download_coco_dataset_split C scratch_dir split year true (fs w)
    = (Ok (images_dir, anno_path), t1) /\
    log w' = log w ++
      [EvDownloadCocoDatasetSplit scratch_dir split year true;
       EvMoveDir images_dir (join dataset_dir "data");
       EvMoveFile anno_path (join dataset_dir "labels.json")].
Proof.
  intros Hy H.
  destruct self; try discriminate Hy; injection Hy as <-;
    cbn [_download_and_prepare] in H; inv_run;
    match goal with
    | E : download_coco_dataset_split _ _ _ _ _ _ = (Ok ?p, ?t) |- _ =>
        exists (fst p), (snd p), t; split;
        [rewrite E; now destruct p | cbn [log]; now rewrite <- !app_assoc]
    end.
Qed.

Lemma coco_transport_sequence_witness :
  exists images_dir anno_path t1,
    download_coco_dataset_split demo (zoo_scratch "coco-2017-segmentation")
      (Some "train") "2017" true (fs empty_world)
    = (Ok (images_dir, anno_path), t1) /\
    log (after coco2017_train empty_world) = log empty_world ++
      [EvDownloadCocoDatasetSplit (zoo_scratch "coco-2017-segmentation")
         (Some "train") "2017" true;
       EvMoveDir images_dir
         (join (zoo_dir "coco-2017-segmentation" "train") "data");
       EvMoveFile anno_path
         (join (zoo_dir "coco-2017-segmentation" "train") "labels.json")].
Proof.
  apply (coco_transport_sequence demo COCO2017Dataset
           (zoo_dir "coco-2017-segmentation" "train")
           (zoo_scratch "coco-2017-segmentation") (Some "train") empty_world
           "2017" (COCODetectionDataset, 2, Some ["person"; "dog"]));
    reflexivity.
Defined.

(** X11.  The layout tag of a successful call depends on the class alone,
    and so does whether a class list is returned: quickstart-video and
    bdd100k return [None], every other class returns a list. *)
Theorem result_shape_by_class C self dataset_dir scratch_dir split w ty n cls w' :
  _download_and_prepare C self dataset_dir scratch_dir split w
    = (Ok (ty, n, cls), w') ->
  ty = layout_of self /\
  (if reports_classes self then exists l, cls = Some l else cls = None).
Proof.
  intros H.
  destruct self; cbn [_download_and_prepare] in H; inv_run;
    repeat match goal with
    | E : (_, _, _) = (_, _, _) |- _ => injection E as <- <- <-
    end;
    cbn [layout_of reports_classes]; split; try reflexivity; eauto.
Qed.

Lemma result_shape_by_class_witness :
  ImageClassificationDirectoryTree = layout_of LabeledFacesInTheWildDataset /\
  (if reports_classes LabeledFacesInTheWildDataset
   then exists l, Some ["Al"; "Bob"; "Cy"] = Some l
   else Some ["Al"; "Bob"; "Cy"] = None).
Proof.
  apply (result_shape_by_class demo LabeledFacesInTheWildDataset
           (zoo_dir "lfw" "train") (zoo_scratch "lfw") (Some "train")
           empty_world ImageClassificationDirectoryTree 3
           (Some ["Al"; "Bob"; "Cy"]) (after lfw_train empty_world)).
  reflexivity.
Defined.

(** X12.  On a cache hit the construction parameters and the scratch
    directory play no part: two instances of the same whole-bundle class
    (another fold, another source directory, other annotation flags), given
    any scratch directories, return the same result and leave the same
    world.  A split laid out for one fold is handed back for every fold. *)
Theorem cache_hit_ignores_parameters C self1 self2 dataset_dir
  scratch_dir1 scratch_dir2 s w :
  same_class self1 self2 = true ->
  whole_bundle self1 = true ->
  fs_exists (split_dir dataset_dir s) (fs w) = true ->
  _download_and_prepare C self1 dataset_dir scratch_dir1 (Some s) w
  = _download_and_prepare C self2 dataset_dir scratch_dir2 (Some s) w.
Proof.
  unfold split_dir. intros Hsame Hb Hhit.
  destruct self1; try discriminate Hb;
    destruct self2; try discriminate Hsame;
    cbn [_download_and_prepare]; unfold_run; cbn [fst snd];
    rewrite Hhit; reflexivity.
Qed.

Lemma cache_hit_ignores_parameters_witness :
  _download_and_prepare demo (HMDB51Dataset 1%Z) (zoo_dir "hmdb51" "train")
    (zoo_scratch "hmdb51") (Some "train") (after hmdb51_train empty_world)
  = _download_and_prepare demo (HMDB51Dataset 3%Z) (zoo_dir "hmdb51" "train")
      ["elsewhere"] (Some "train") (after hmdb51_train empty_world).
Proof.
  apply (cache_hit_ignores_parameters demo (HMDB51Dataset 1%Z)
           (HMDB51Dataset 3%Z) (zoo_dir "hmdb51" "train")
           (zoo_scratch "hmdb51") ["elsewhere"] "train"
           (after hmdb51_train empty_world));
    reflexivity.
Defined.

(** ** Class lists *)

(** X13.  The cityscapes strategy returns one class list for all three
    splits: the classes of the train, test and validation directories, in
    that order, sorted ascending.  It reads all three directories whatever
    split was asked for, and changes nothing. *)
Theorem cityscapes_classes_do_not_depend_on_split C fine coarse person
  dataset_dir scratch_dir s w train test validation n :
  get_classes C FiftyOneDatasetImporter (join (dirname dataset_dir) "train") (fs w)
    = Ok train ->
  get_classes C FiftyOneDatasetImporter (join (dirname dataset_dir) "test") (fs w)
    = Ok test ->
  get_classes C FiftyOneDatasetImporter
    (join (dirname dataset_dir) "validation") (fs w) = Ok validation ->
  get_num_samples C FiftyOneDatasetImporter (split_dir dataset_dir s) (fs w)
    = Ok n ->
  _download_and_prepare C (CityscapesDataset fine coarse person)
    dataset_dir scratch_dir (Some s) w
  = (Ok (FiftyOneDataset, n, Some (sorted (train ++ test ++ validation))), w)
  /\
  Sorted (fun a b => String.leb a b = true) (sorted (train ++ test ++ validation))
  /\
  Permutation (train ++ test ++ validation) (sorted (train ++ test ++ validation)).
Proof.
  unfold split_dir. intros Htr Hte Hva Hn. repeat split.
  - cbn [_download_and_prepare]. unfold_run. cbn [fst snd].
    destruct (fs_exists (join (dirname dataset_dir) s) (fs w)); cbn [negb];
      now rewrite Htr, Hte, Hva, Hn.
  - apply StringSort.Sorted_sort.
  - apply StringSort.Permuted_sort.
Qed.

Lemma cityscapes_classes_do_not_depend_on_split_witness :
  (_download_and_prepare catalogued (CityscapesDataset false false false)
     (zoo_dir "cityscapes" "train") (zoo_scratch "cityscapes") (Some "train")
     cityscapes_labelled_world
   = (Ok (FiftyOneDataset, 2,
          Some (sorted (["road"; "car"] ++ ["sky"] ++ ["person"; "building"]))),
      cityscapes_labelled_world)
   /\
   Sorted (fun a b => String.leb a b = true)
     (sorted (["road"; "car"] ++ ["sky"] ++ ["person"; "building"]))
   /\
   Permutation (["road"; "car"] ++ ["sky"] ++ ["person"; "building"])
     (sorted (["road"; "car"] ++ ["sky"] ++ ["person"; "building"])))
  /\
  (_download_and_prepare catalogued (CityscapesDataset false false false)
     (zoo_dir "cityscapes" "validation") (zoo_scratch "cityscapes")
     (Some "validation") cityscapes_labelled_world
   = (Ok (FiftyOneDataset, 1,
          Some (sorted (["road"; "car"] ++ ["sky"] ++ ["person"; "building"]))),
      cityscapes_labelled_world)
   /\
   Sorted (fun a b => String.leb a b = true)
     (sorted (["road"; "car"] ++ ["sky"] ++ ["person"; "building"]))
   /\
   Permutation (["road"; "car"] ++ ["sky"] ++ ["person"; "building"])
     (sorted (["road"; "car"] ++ ["sky"] ++ ["person"; "building"]))).
Proof.
  split.
  - apply (cityscapes_classes_do_not_depend_on_split catalogued false false
             false (zoo_dir "cityscapes" "train") (zoo_scratch "cityscapes")
             "train" cityscapes_labelled_world);
      reflexivity.
  - apply (cityscapes_classes_do_not_depend_on_split catalogued false false
             false (zoo_dir "cityscapes" "validation")
             (zoo_scratch "cityscapes") "validation" cityscapes_labelled_world);
      reflexivity.
Defined.

Example cityscapes_labelled_classes :
  sorted (["road"; "car"] ++ ["sky"] ++ ["person"; "building"])
  = ["building"; "car"; "person"; "road"; "sky"].
Proof. reflexivity. Qed.

(** X14.  Every successful call of the lfw strategy, on a hit or after a
    retrieval, returns a class list that is sorted ascending and holds
    exactly the classes of the train directory and of the test directory as
    they are on disk when the call returns. *)
Theorem lfw_classes_sorted_on_every_success C dataset_dir scratch_dir split
  w ty n cls w' :
  _download_and_prepare C LabeledFacesInTheWildDataset dataset_dir scratch_dir
    split w = (Ok (ty, n, cls), w') ->
  exists train test,
    get_classes C ImageClassificationDirectoryTreeImporter
      (join (dirname dataset_dir) "train") (fs w') = Ok train /\
    get_classes C ImageClassificationDirectoryTreeImporter
      (join (dirname dataset_dir) "test") (fs w') = Ok test /\
    cls = Some (sorted (train ++ test)) /\
    Sorted (fun a b => String.leb a b = true) (sorted (train ++ test)) /\
    Permutation (train ++ test) (sorted (train ++ test)).
Proof.
  intros H. cbn [_download_and_prepare] in H. inv_run.
  match goal with
  | E : (_, _, _) = (_, _, _) |- _ => injection E as <- <- <-
  end.
  match goal with
  | E1 : get_classes _ _ (join _ "train") _ = Ok ?a,
    E2 : get_classes _ _ (join _ "test") _ = Ok ?b |- _ =>
      exists a, b; repeat split;
      [ exact E1 | exact E2 | apply StringSort.Sorted_sort
      | apply StringSort.Permuted_sort ]
  end.
Qed.

Lemma lfw_classes_sorted_on_every_success_witness :
  exists train test,
    get_classes demo ImageClassificationDirectoryTreeImporter
      (join (dirname (zoo_dir "lfw" "train")) "train")
      (fs (after lfw_train empty_world)) = Ok train /\
    get_classes demo ImageClassificationDirectoryTreeImporter
      (join (dirname (zoo_dir "lfw" "train")) "test")
      (fs (after lfw_train empty_world)) = Ok test /\
    Some ["Al"; "Bob"; "Cy"] = Some (sorted (train ++ test)) /\
    Sorted (fun a b => String.leb a b = true) (sorted (train ++ test)) /\
    Permutation (train ++ test) (sorted (train ++ test)).
Proof.
  apply (lfw_classes_sorted_on_every_success demo (zoo_dir "lfw" "train")
           (zoo_scratch "lfw") (Some "train") empty_world
           ImageClassificationDirectoryTree 3 (Some ["Al"; "Bob"; "Cy"])
           (after lfw_train empty_world)).
  reflexivity.
Defined.

(** ** The registry *)

(** X15.  Every class of the module is registered, under the name its
    default instance reports: looking that name up in [AVAILABLE_DATASETS]
    gives the class back, so no two classes share a name. *)
Theorem registry_finds_every_class cls :
  registry_get (name (instantiate cls)) AVAILABLE_DATASETS = Some cls.
Proof. destruct cls; reflexivity. Qed.


(** ** The ingest script, draw by draw *)

Lemma make_samples_length data_dir random_random partition keys n :
  length (fst (make_samples data_dir random_random partition keys n))
  = length keys.
Proof.
  revert n. induction keys as [|k rest IH]; intros n; simpl; [reflexivity|].
  specialize (IH (S n)).
  destruct (make_samples data_dir random_random partition rest (S n)).
  simpl in *. now rewrite IH.
Qed.

Lemma make_samples_draws data_dir random_random partition keys n :
  snd (make_samples data_dir random_random partition keys n) = n + length keys.
Proof.
  revert n. induction keys as [|k rest IH]; intros n; simpl; [lia|].
  specialize (IH (S n)).
  destruct (make_samples data_dir random_random partition rest (S n)).
  simpl in *. lia.
Qed.

Lemma make_samples_rand data_dir random_random partition keys n i s :
  partition <> "rand" ->
  nth_error (fst (make_samples data_dir random_random partition keys n)) i
    = Some s ->
  (In "rand" (tags s) <-> Qlt threshold (random_random (n + i))).
Proof.
  intros Hp. revert n i. induction keys as [|k rest IH]; intros n i H; simpl in H.
  - destruct i; discriminate.
  - specialize (IH (S n)).
    destruct (make_samples data_dir random_random partition rest (S n))
      as [more n'].
    simpl in *. destruct i as [|i]; simpl in H.
    + injection H as <-. simpl. rewrite Nat.add_0_r.
      destruct (Qle_bool (random_random n) threshold) eqn:E; simpl.
      * apply Qle_bool_iff in E. split.
        -- intros [Hin|[]]. congruence.
        -- intros Hlt. exfalso. now apply (Qlt_not_le _ _ Hlt).
      * split.
        -- intros _. apply Qnot_le_lt. intros Hle.
           apply Qle_bool_iff in Hle. congruence.
        -- intros _. right. now left.
    + apply IH in H. now replace (n + S i) with (S n + i) by lia.
Qed.

(** X17.  The script calls [random.random] once per sample, in order, train
    before test: the [i]-th train sample carries the ["rand"] tag exactly
    when the [i]-th draw exceeds 0.7, the [i]-th test sample exactly when the
    draw numbered (number of train entries + [i]) does, and the number of
    draws made is the number of samples. *)
Theorem ingest_rand_tag_follows_draws data_dir read_json random_random
  fine_train coarse_train fine_test coarse_test :
  read_json (fine_labels_path data_dir "train") = Ok fine_train ->
  read_json (coarse_labels_path data_dir "train") = Ok coarse_train ->
  read_json (fine_labels_path data_dir "test") = Ok fine_test ->
  read_json (coarse_labels_path data_dir "test") = Ok coarse_test ->
  exists train_samples test_samples,
    ingest data_dir read_json random_random
      = (Ok tt,
         IngestState (length fine_train + length fine_test)
           [train_samples; test_samples]) /\
    (forall i s, nth_error train_samples i = Some s ->
       (In "rand" (tags s) <-> Qlt threshold (random_random i))) /\
    (forall i s, nth_error test_samples i = Some s ->
       (In "rand" (tags s)
        <-> Qlt threshold (random_random (length fine_train + i)))).
Proof.
  intros Hft Hct Hfe Hce.
  unfold ingest, partitions. cbn [ingest_loop]. unfold ingest_partition.
  rewrite Hft, Hct. cbn [draws added].
  pose proof (make_samples_draws data_dir random_random "train"
                (map fst fine_train) 0) as Hn1.
  pose proof (make_samples_rand data_dir random_random "train"
                (map fst fine_train) 0) as Hr1.
  destruct (make_samples data_dir random_random "train" (map fst fine_train) 0)
    as [train_samples n1].
  rewrite Hfe, Hce. cbn [draws added app].
  pose proof (make_samples_draws data_dir random_random "test"
                (map fst fine_test) n1) as Hn2.
  pose proof (make_samples_rand data_dir random_random "test"
                (map fst fine_test) n1) as Hr2.
  destruct (make_samples data_dir random_random "test" (map fst fine_test) n1)
    as [test_samples n2].
  cbn [fst snd] in *. rewrite length_map in Hn1, Hn2. simpl in Hn1. subst n1 n2.
  exists train_samples, test_samples.
  split; [reflexivity|]. split; intros i s H.
  - apply (Hr1 i s); [discriminate | exact H].
  - apply (Hr2 i s); [discriminate | exact H].
Qed.

Lemma ingest_rand_tag_follows_draws_witness :
  exists train_samples test_samples,
    ingest "/data/cifar100" demo_read_json demo_random
      = (Ok tt,
         IngestState
           (length [("train/0.png", JInt 19); ("train/1.png", JInt 29)]
            + length [("test/0.png", JInt 49)])
           [train_samples; test_samples]) /\
    (forall i s, nth_error train_samples i = Some s ->
       (In "rand" (tags s) <-> Qlt threshold (demo_random i))) /\
    (forall i s, nth_error test_samples i = Some s ->
       (In "rand" (tags s)
        <-> Qlt threshold (demo_random
                 (length [("train/0.png", JInt 19); ("train/1.png", JInt 29)]
                  + i)))).
Proof.
  apply (ingest_rand_tag_follows_draws "/data/cifar100" demo_read_json
           demo_random
           [("train/0.png", JInt 19); ("train/1.png", JInt 29)]
           [("train/0.png", JInt 11); ("train/1.png", JInt 15)]
           [("test/0.png", JInt 49)]
           [("test/0.png", JInt 10)]);
    reflexivity.
Defined.

(** X18.  The coarse-labels file is read although its contents are never
    used: when the fine labels of the first partition parse and the coarse
    labels do not, the script raises that error, having added no sample and
    made no draw. *)
Theorem ingest_needs_coarse_labels data_dir read_json random_random
  fine_train e :
  read_json (fine_labels_path data_dir "train") = Ok fine_train ->
  read_json (coarse_labels_path data_dir "train") = Raise e ->
  ingest data_dir read_json random_random = (Raise e, IngestState 0 []).
Proof.
  intros Hft Hct. unfold ingest, partitions. cbn [ingest_loop].
  unfold ingest_partition. now rewrite Hft, Hct.
Qed.

Lemma ingest_needs_coarse_labels_witness :
  ingest "/data/cifar100" no_coarse_read_json demo_random
  = (Raise FileNotFoundError, IngestState 0 []).
Proof.
  apply (ingest_needs_coarse_labels "/data/cifar100" no_coarse_read_json
           demo_random [("train/0.png", JInt 19)]);
    reflexivity.
Defined.

(** X19.  The ingest is not all-or-nothing: when the train files parse and
    a label file of the test partition does not, the script raises that
    error after the train batch has been handed over, one sample per train
    entry, and that batch stays. *)
Theorem ingest_keeps_train_when_test_fails data_dir read_json random_random
  fine_train coarse_train e :
  read_json (fine_labels_path data_dir "train") = Ok fine_train ->
  read_json (coarse_labels_path data_dir "train") = Ok coarse_train ->
  (read_json (fine_labels_path data_dir "test") = Raise e \/
   (exists fine_test, read_json (fine_labels_path data_dir "test") = Ok fine_test)
   /\ read_json (coarse_labels_path data_dir "test") = Raise e) ->
  exists train_samples,
    ingest data_dir read_json random_random
      = (Raise e, IngestState (length fine_train) [train_samples]) /\
    map filepath train_samples
      = map (fun x => posix_join data_dir (fst x)) fine_train /\
    Forall (tagged "train") train_samples.
Proof.
  intros Hft Hct Htest.
  unfold ingest, partitions. cbn [ingest_loop]. unfold ingest_partition.
  rewrite Hft, Hct. cbn [draws added].
  pose proof (make_samples_spec data_dir random_random "train"
                (map fst fine_train) 0) as (Hp1 & Ht1 & Hn1).
  destruct (make_samples data_dir random_random "train" (map fst fine_train) 0)
    as [train_samples n1].
  cbn [fst snd app] in *. rewrite length_map in Hn1. simpl in Hn1. subst n1.
  rewrite map_map in Hp1.
  exists train_samples. repeat split; try assumption.
  destruct Htest as [Hfe|[[fine_test Hfe] Hce]].
  - now rewrite Hfe.
  - now rewrite Hfe, Hce.
Qed.

Lemma ingest_keeps_train_when_test_fails_witness :
  exists train_samples,
    ingest "/data/cifar100" train_only_read_json demo_random
      = (Raise FileNotFoundError,
         IngestState
           (length [("train/0.png", JInt 19); ("train/1.png", JInt 29)])
           [train_samples]) /\
    map filepath train_samples
      = map (fun x => posix_join "/data/cifar100" (fst x))
          [("train/0.png", JInt 19); ("train/1.png", JInt 29)] /\
    Forall (tagged "train") train_samples.
Proof.
  apply (ingest_keeps_train_when_test_fails "/data/cifar100"
           train_only_read_json demo_random
           [("train/0.png", JInt 19); ("train/1.png", JInt 29)]
           [("train/0.png", JInt 11); ("train/1.png", JInt 15)]).
  - reflexivity.
  - reflexivity.
  - left. reflexivity.
Defined.

(** ** How the quickstart and COCO steps chain *)

(** X20.  A successful call of a quickstart strategy has downloaded the
    archive to [<scratch_dir>/dataset.zip], extracted it on the disk the
    download left (deleting the archive), and then moved every entry that
    the extraction left in [<scratch_dir>/<_DIR_IN_ZIP>] into [dataset_dir],
    one [shutil.move] per entry in listing order; it makes no other
    transport call. *)
Theorem quickstart_transport_sequence C self dataset_dir scratch_dir split
  w r w' :
  (self = QuickstartDataset \/ self = VideoQuickstartDataset) ->
  _download_and_prepare C self dataset_dir scratch_dir split w = (Ok r, w') ->
  exists t1 t2 kids,
    download_google_drive_file C (_GDRIVE_ID self)
      (join scratch_dir "dataset.zip") (fs w) = (Ok tt, t1) /\
    extract_zip C (join scratch_dir "dataset.zip") true t1 = (Ok tt, t2) /\
    fs_lookup (join scratch_dir (_DIR_IN_ZIP self)) t2 = Some (Dir kids) /\
    log w' = log w ++
      [EvDownloadGoogleDriveFile (_GDRIVE_ID self) (join scratch_dir "dataset.zip");
       EvExtractZip (join scratch_dir "dataset.zip") true] ++
      map (fun e =>
             EvShutilMove (join (join scratch_dir (_DIR_IN_ZIP self)) (fst e))
               dataset_dir) kids.
Proof.
  intros [-> | ->] H; cbn [_download_and_prepare] in H; inv_run;
    match goal with
    | Hm : _move_dir _ _ _ = (Ok ?u, _) |- _ =>
        destruct u; apply move_dir_log_on_success in Hm;
        destruct Hm as (kids & Hkids & Hlog)
    end;
    repeat match goal with u : unit |- _ => destruct u end;
    cbn [fs log] in *;
    match goal with
    | Hd : download_google_drive_file _ _ _ _ = (Ok tt, ?a),
      He : extract_zip _ _ _ _ = (Ok tt, ?b) |- _ =>
        exists a, b, kids; repeat split; try assumption
    end;
    rewrite Hlog; now rewrite <- !app_assoc.
Qed.

Lemma quickstart_transport_sequence_witness :
  exists t1 t2 kids,
    download_google_drive_file demo (_GDRIVE_ID QuickstartDataset)
      (join (zoo_scratch "quickstart") "dataset.zip") (fs empty_world)
      = (Ok tt, t1) /\
    extract_zip demo (join (zoo_scratch "quickstart") "dataset.zip") true t1
      = (Ok tt, t2) /\
    fs_lookup (join (zoo_scratch "quickstart") (_DIR_IN_ZIP QuickstartDataset)) t2
      = Some (Dir kids) /\
    log (after quickstart_all empty_world) = log empty_world ++
      [EvDownloadGoogleDriveFile (_GDRIVE_ID QuickstartDataset)
         (join (zoo_scratch "quickstart") "dataset.zip");
       EvExtractZip (join (zoo_scratch "quickstart") "dataset.zip") true] ++
      map (fun e =>
             EvShutilMove
               (join (join (zoo_scratch "quickstart")
                        (_DIR_IN_ZIP QuickstartDataset)) (fst e))
               ["zoo"; "quickstart"]) kids.
Proof.
  apply (quickstart_transport_sequence demo QuickstartDataset
           ["zoo"; "quickstart"] (zoo_scratch "quickstart") None empty_world
           (FiftyOneDataset, 2, Some [])).
  - left. reflexivity.
  - reflexivity.
Defined.

(** X21.  When the split download of a COCO strategy succeeds and the
    [move_dir] of the images raises, the strategy raises that exception
    after two transport calls: the annotations file is not moved and
    [labels.json] is not read. *)
Theorem coco_move_dir_failure_surfaces C self dataset_dir scratch_dir split
  w year images_dir anno_path t1 e t2 :
  coco_year self = Some year ->
  download_coco_dataset_split C scratch_dir split year true (fs w)
    = (Ok (images_dir, anno_path), t1) ->
  move_dir C images_dir (join dataset_dir "data") t1 = (Raise e, t2) ->
  _download_and_prepare C self dataset_dir scratch_dir split w
  = (Raise e,
     World t2
       (log w ++
        [EvDownloadCocoDatasetSplit scratch_dir split year true;
         EvMoveDir images_dir (join dataset_dir "data")])).
Proof.
  intros Hy Hd Hm.
  destruct self; try discriminate Hy; injection Hy as <-;
    cbn [_download_and_prepare]; unfold_run; cbn [fst snd];
    rewrite Hd; cbn [fst snd fs log]; rewrite Hm;
    now rewrite <- app_assoc.
Qed.

Lemma coco_move_dir_failure_surfaces_witness :
  _download_and_prepare demo COCO2014Dataset ["zoo"; "blocked"; "data"; "x"]
    ["tmp"] (Some "train") blocked_world
  = (Raise NotADirectoryError,
     World
       (Dir [("zoo", Dir [("blocked", img "file")]);
             ("tmp",
              Dir [("train2014",
                    Dir [("1.jpg", img "1"); ("2.jpg", img "2");
                         ("3.jpg", img "3")]);
                   ("annotations",
                    Dir [("instances_train2014.json",
                          File (Annotations ["person"; "dog"]
                                  ["1.jpg"; "2.jpg"]))])])])
       (log blocked_world ++
        [EvDownloadCocoDatasetSplit ["tmp"] (Some "train") "2014" true;
         EvMoveDir ["tmp"; "train2014"]
           (join ["zoo"; "blocked"; "data"; "x"] "data")])).
Proof.
  eapply (coco_move_dir_failure_surfaces demo COCO2014Dataset
            ["zoo"; "blocked"; "data"; "x"] ["tmp"] (Some "train") blocked_world
            "2014" ["tmp"; "train2014"]
            ["tmp"; "annotations"; "instances_train2014.json"]);
    reflexivity.
Defined.
